(** * UnitWise one-time-code sessions: issuance, verification, reset

    A shallow embedding of the Cloud Functions that issue and verify
    one-time codes ([backend/functions/sendOtp.js], [verifyOtp.js],
    [resetPassword.js] and [utils/twilioClient.js]), followed by the
    properties of the session lifecycle.

    The handlers are asynchronous JavaScript functions that talk to
    Firestore, Twilio, bcrypt and Firebase Auth.  They are modelled as
    computations in a state-and-exception monad over a [World] (the two
    Firestore collections, the console, the pending timers, a trace of
    the calls made to collaborators), run against an [Env] that fixes how
    the collaborators answer during one request. *)

From Stdlib Require Import ZArith Lia String Ascii List.
From stdpp Require Import base option list strings gmap sorting pretty.

Local Open Scope string_scope.
Local Open Scope Z_scope.

(** ** JavaScript values that cross the HTTP boundary *)

Inductive JVal :=
  | JNull
  | JBool (b : bool)
  | JNum (n : Z)
  | JStr (s : string).

(** An object literal, in the order its keys are written. *)
Definition JObj := list (string * JVal).

Fixpoint obj_get (k : string) (o : JObj) : option JVal :=
  match o with
  | [] => None
  | (k', v) :: o' => if String.eqb k k' then Some v else obj_get k o'
  end.

Definition obj_keys (o : JObj) : list string := map fst o.

(** [res.status(s).json(o)] *)
Record Response := { status : Z; payload : JObj }.

(** The body of a request: every field may be absent. *)
Record Body := {
  b_phone : option string;
  b_name : option string;
  b_email : option string;
  b_source : option string;
  b_sessionId : option string;
  b_otp : option string;
  b_action : option string;
  b_newPassword : option string;
}.

Record Request := { method : string; body : Body }.

(** A thrown value: [error.message] and [error.code] (absent, a string
    for Firebase Auth, a number for Twilio). *)
Record JsError := { err_message : string; err_code : option JVal }.

(** [!x] for a field that is a string when present: absent and the empty
    string are falsy. *)
Definition falsy (x : option string) : bool :=
  match x with
  | None => true
  | Some s => String.eqb s ""
  end.

(** [x || d] *)
Definition or_else (x : option string) (d : string) : string :=
  match x with
  | Some s => if String.eqb s "" then d else s
  | None => d
  end.

(** [x || null] *)
Definition or_null (x : option string) : option string :=
  match x with
  | Some s => if String.eqb s "" then None else Some s
  | None => None
  end.

Definition opt_json (x : option string) : JVal :=
  match x with
  | Some s => JStr s
  | None => JNull
  end.

(** Interpolation of a value in a template literal. *)
Definition show_val (v : option JVal) : string :=
  match v with
  | None => "undefined"
  | Some JNull => "null"
  | Some (JBool true) => "true"
  | Some (JBool false) => "false"
  | Some (JNum n) => pretty n
  | Some (JStr s) => s
  end.

(** Truthiness of [error.code]. *)
Definition truthy_val (v : option JVal) : bool :=
  match v with
  | None | Some JNull | Some (JBool false) => false
  | Some (JBool true) => true
  | Some (JNum n) => negb (Z.eqb n 0)
  | Some (JStr s) => negb (String.eqb s "")
  end.

(** [error.code === s] *)
Definition code_is (v : option JVal) (s : string) : bool :=
  match v with
  | Some (JStr c) => String.eqb c s
  | _ => false
  end.

(** [Math.ceil(a / b)] for integers [a] and a positive integer [b]: the
    quotient is exact or at least [1/b] away from an integer, so the
    floating-point division cannot change the ceiling for any timestamp
    below [2^53]. *)
Definition ceil_div (a b : Z) : Z := - ((- a) / b).

(** Whether [sub] occurs in [s]. *)
Fixpoint contains (sub s : string) : bool :=
  String.prefix sub s ||
  match s with
  | EmptyString => false
  | String _ s' => contains sub s'
  end.

(** ** Firestore documents, console lines, timers, calls *)

Inductive Collection := OtpSessions | PasswordResetSessions.

(** A session document.  [source], [name] and [email] are written by
    [sendOtp] only ([name] and [email] may be [null]); [messageSid] is
    added once the message was accepted.  The fields live in a module so
    that [Doc.phone sessionData] can be told from a handler's own
    [phone]. *)
Module Doc.
Record Session := {
phone : string;
otpHash : string;
createdAt : Z;
expiresAt : Z;
attempts : Z;
source : option string;
used : bool;
name : option string;
email : option string;
messageSid : string;
}.
End Doc.
Export Doc.

Definition set_attempts (n : Z) (s : Session) : Session :=
  {| phone := phone s; otpHash := otpHash s; createdAt := createdAt s;
     expiresAt := expiresAt s; attempts := n; source := source s;
     used := used s; name := name s; email := email s;
     messageSid := messageSid s |}.

Definition set_used (b : bool) (s : Session) : Session :=
  {| phone := phone s; otpHash := otpHash s; createdAt := createdAt s;
     expiresAt := expiresAt s; attempts := attempts s; source := source s;
     used := b; name := name s; email := email s;
     messageSid := messageSid s |}.

Inductive Level := LLog | LWarn | LError.

(** One call of [console.log], [console.warn] or [console.error]: the
    arguments, each as it prints. *)
Record LogEntry := { level : Level; args : list string }.

Definition log_mentions (secret : string) (e : LogEntry) : bool :=
  existsb (contains secret) (args e).

(** [setTimeout(() => sessionRef.delete(), delay)] *)
Record Timer := { delay : Z; t_coll : Collection; t_doc : string }.

Inductive Patch := PatchAttempts (n : Z) | PatchUsed (b : bool).

(** The calls a handler makes to its collaborators, as they happen. *)
Inductive Call :=
  | DbQuery (c : Collection) (ph : string) (since : Z)
  | DbGet (c : Collection) (id : string)
  | DbSet (c : Collection) (id : string)
  | DbUpdate (c : Collection) (id : string) (p : Patch)
  | DbDelete (c : Collection) (id : string)
  | Dispatch (to code : string) (ok : bool)
  | BcryptHash (data : string)
  | BcryptCompare (data hash : string) (ok : bool)
  | AuthGetUser (ph : string)
  | AuthCreateUser (ph : string)
  | AuthCreateToken (uid : string)
  | AuthUpdateUser (uid : string).

Definition is_db_call (c : Call) : bool :=
  match c with
  | DbQuery _ _ _ | DbGet _ _ | DbSet _ _ | DbUpdate _ _ _ | DbDelete _ _ => true
  | _ => false
  end.

Definition is_auth_call (c : Call) : bool :=
  match c with
  | AuthGetUser _ | AuthCreateUser _ | AuthCreateToken _ | AuthUpdateUser _ => true
  | _ => false
  end.

Definition is_compare (c : Call) : bool :=
  match c with
  | BcryptCompare _ _ _ => true
  | _ => false
  end.

Record World := {
  otp_sessions : gmap string Session;
  password_reset_sessions : gmap string Session;
  console : list LogEntry;
  timers : list Timer;
  calls : list Call;
  clock_reads : nat;
}.

Definition docs (c : Collection) (w : World) : gmap string Session :=
  match c with
  | OtpSessions => otp_sessions w
  | PasswordResetSessions => password_reset_sessions w
  end.

Definition with_docs (c : Collection) (m : gmap string Session) (w : World) : World :=
  match c with
  | OtpSessions =>
      {| otp_sessions := m; password_reset_sessions := password_reset_sessions w;
         console := console w; timers := timers w; calls := calls w;
         clock_reads := clock_reads w |}
  | PasswordResetSessions =>
      {| otp_sessions := otp_sessions w; password_reset_sessions := m;
         console := console w; timers := timers w; calls := calls w;
         clock_reads := clock_reads w |}
  end.

Definition with_console (l : list LogEntry) (w : World) : World :=
  {| otp_sessions := otp_sessions w; password_reset_sessions := password_reset_sessions w;
     console := l; timers := timers w; calls := calls w;
     clock_reads := clock_reads w |}.

Definition with_timers (l : list Timer) (w : World) : World :=
  {| otp_sessions := otp_sessions w; password_reset_sessions := password_reset_sessions w;
     console := console w; timers := l; calls := calls w;
     clock_reads := clock_reads w |}.

Definition with_calls (l : list Call) (w : World) : World :=
  {| otp_sessions := otp_sessions w; password_reset_sessions := password_reset_sessions w;
     console := console w; timers := timers w; calls := l;
     clock_reads := clock_reads w |}.

Definition with_clock_reads (n : nat) (w : World) : World :=
  {| otp_sessions := otp_sessions w; password_reset_sessions := password_reset_sessions w;
     console := console w; timers := timers w; calls := calls w;
     clock_reads := n |}.

(** ** What the collaborators do during one request *)

Inductive StoreOp := OpQuery | OpGet | OpSet | OpUpdate | OpDelete.

Record UserRecord := { uid : string }.

Record TwilioMessage := { sid : string; msg_status : string }.

Inductive Res (A : Type) :=
  | Ret (a : A)
  | Throw (e : JsError).
Arguments Ret {A} a.
Arguments Throw {A} e.

Record Env := {
  (** the k-th reading of [Date.now()] / [new Date()] *)
  clock : nat -> Z;
  (** the draw behind [crypto.randomInt] *)
  entropy : Z;
  (** the id [collection.doc()] generates *)
  auto_id : string;
  (** [parseInt(process.env.BCRYPT_SALT_ROUNDS || '10')] *)
  saltRounds : Z;
  (** [parseInt(process.env.PASSWORD_MIN_LENGTH || '6')] *)
  minLength : Z;
  bcrypt_hash : string -> Z -> string;
  bcrypt_compare : string -> string -> bool;
  (** the Firestore operations that reject during this request *)
  db_fault : Collection -> StoreOp -> option JsError;
  (** [TWILIO_ACCOUNT_SID && TWILIO_AUTH_TOKEN] *)
  twilio_credentials : bool;
  (** [TWILIO_PHONE_NUMBER] *)
  fromPhoneNumber : option string;
  (** [client.messages.create({to, from, body})] *)
  messages_create : string -> string -> string -> Res TwilioMessage;
  getUserByPhoneNumber : string -> Res UserRecord;
  createUser : string -> Res UserRecord;
  createCustomToken : string -> Res string;
  updateUser : string -> string -> Res unit;
}.

(** ** The monad of handlers: state and exceptions

    A rejected promise or a [throw] leaves the world as it was at that
    point: what was written before stays written. *)

Definition M (A : Type) : Type := World -> Res A * World.

#[global] Instance M_ret : MRet M := fun A a w => (Ret a, w).

#[global] Instance M_bind : MBind M := fun A B f m w =>
  match m w with
  | (Ret a, w') => f a w'
  | (Throw e, w') => (Throw e, w')
  end.

Definition throw {A} (e : JsError) : M A := fun w => (Throw e, w).

(** [try { m } catch (error) { h error }] *)
Definition try_catch {A} (m : M A) (h : JsError -> M A) : M A := fun w =>
  match m w with
  | (Ret a, w') => (Ret a, w')
  | (Throw e, w') => h e w'
  end.

(** [await] of a collaborator's answer. *)
Definition await {A} (r : Res A) : M A := fun w => (r, w).

Definition modify (f : World -> World) : M unit := fun w => (Ret tt, f w).

Definition gets {A} (f : World -> A) : M A := fun w => (Ret (f w), w).

Definition console_log (l : list string) : M unit :=
  modify (fun w => with_console (console w ++ [{| level := LLog; args := l |}]) w).

Definition console_warn (l : list string) : M unit :=
  modify (fun w => with_console (console w ++ [{| level := LWarn; args := l |}]) w).

Definition console_error (l : list string) : M unit :=
  modify (fun w => with_console (console w ++ [{| level := LError; args := l |}]) w).

Definition record (c : Call) : M unit :=
  modify (fun w => with_calls (calls w ++ [c]) w).

(** [setTimeout(async () => { try { await ref.delete() } catch ... }, d)] *)
Definition setTimeout (t : Timer) : M unit :=
  modify (fun w => with_timers (timers w ++ [t]) w).

(** What a run added to the trace and to the console. *)
Definition calls_since (w w' : World) : list Call :=
  drop (length (calls w)) (calls w').

Definition logs_since (w w' : World) : list LogEntry :=
  drop (length (console w)) (console w').

(** Firestore orders the result of a query with a range filter by the
    filtered field, ascending: [docs[0]] is the oldest match. *)
Definition created_le (a b : string * Session) : Prop :=
  createdAt a.2 <= createdAt b.2.

#[global] Instance created_le_dec : RelDecision created_le.
Proof. intros a b. unfold created_le. apply _. Defined.

Definition matches (ph : string) (since : Z) (d : string * Session) : Prop :=
  phone d.2 = ph /\ since < createdAt d.2.

#[global] Instance matches_dec ph since d : Decision (matches ph since d).
Proof. unfold matches. apply _. Defined.

Definition query_docs (ph : string) (since : Z) (m : gmap string Session)
  : list (string * Session) :=
  merge_sort created_le (filter (matches ph since) (map_to_list m)).

Section Firestore.
Variable env : Env.

Definition date_now : M Z := fun w =>
  (Ret (clock env (clock_reads w)), with_clock_reads (S (clock_reads w)) w).

Definition db_call (c : Collection) (op : StoreOp) (ev : Call) : M unit :=
  record ev;;
  match db_fault env c op with
  | Some e => throw e
  | None => mret tt
  end.

(** [collection.where('phone','==',ph).where('createdAt','>',since).get()] *)
Definition db_query (c : Collection) (ph : string) (since : Z)
  : M (list (string * Session)) :=
  db_call c OpQuery (DbQuery c ph since);;
  gets (fun w => query_docs ph since (docs c w)).

(** [ref.get()]: [None] when [!doc.exists]. *)
Definition db_get (c : Collection) (id : string) : M (option Session) :=
  db_call c OpGet (DbGet c id);;
  gets (fun w => docs c w !! id).

(** [ref.set(data)] *)
Definition db_set (c : Collection) (id : string) (d : Session) : M unit :=
  db_call c OpSet (DbSet c id);;
  modify (fun w => with_docs c (<[id := d]> (docs c w)) w).

Definition apply_patch (p : Patch) : Session -> Session :=
  match p with
  | PatchAttempts n => set_attempts n
  | PatchUsed b => set_used b
  end.

(** [ref.update(patch)]: rejects when the document does not exist. *)
Definition db_update (c : Collection) (id : string) (p : Patch) : M unit :=
  db_call c OpUpdate (DbUpdate c id p);;
  d ← gets (fun w => docs c w !! id);
  match d with
  | Some d => modify (fun w => with_docs c (<[id := apply_patch p d]> (docs c w)) w)
  | None => throw {| err_message := "No document to update";
                     err_code := Some (JNum 5) |}
  end.

(** [ref.delete()] *)
Definition db_delete (c : Collection) (id : string) : M unit :=
  db_call c OpDelete (DbDelete c id);;
  modify (fun w => with_docs c (delete id (docs c w)) w).

(** A pending timer fires: the callback deletes the document and
    swallows a failure. *)
Definition fire (t : Timer) : M unit :=
  try_catch (db_delete (t_coll t) (t_doc t))
    (fun error =>
       console_error [match t_coll t with
                      | OtpSessions => "[verifyOtp] Failed to delete session:"
                      | PasswordResetSessions => "[resetPassword] Failed to delete session:"
                      end; err_message error]).

Definition hash (data : string) (rounds : Z) : M string :=
  record (BcryptHash data);;
  mret (bcrypt_hash env data rounds).

Definition compare (data h : string) : M bool :=
  let ok := bcrypt_compare env data h in
  record (BcryptCompare data h ok);;
  mret ok.
End Firestore.

(** ** utils/twilioClient.js *)

Definition is_digit (c : ascii) : bool :=
  (48 <=? nat_of_ascii c)%nat && (nat_of_ascii c <=? 57)%nat.

Definition all_digits (s : string) : bool :=
  forallb is_digit (list_ascii_of_string s).

Fixpoint stars (n : nat) : string :=
  match n with
  | O => ""
  | S n' => String "*" (stars n')
  end.

(** What [sendSMSOTP] returns: [{success: true, messageSid, status,
    channel}] or [{success: false, error, message, channel}]. *)
Inductive TwilioResult :=
  | TwilioOk (messageSid status channel : string)
  | TwilioFailed (error : JVal) (message : string) (channel : string).

Module TwilioClient.

(** [phone.slice(0, 4) + '*'.repeat(phone.length - 7) + phone.slice(-3)] *)
Definition maskPhoneNumber (phone : string) : string :=
  if String.eqb phone "" || (String.length phone <? 8)%nat then "***INVALID***"
  else
    let countryCode := substring 0 4 phone in
    let lastDigits := substring (String.length phone - 3) 3 phone in
    let maskedMiddle := stars (String.length phone - 7) in
    countryCode +:+ maskedMiddle +:+ lastDigits.

Definition errorMessages (code : option JVal) : option string :=
  match code with
  | Some (JNum 21211) => Some "Invalid phone number format. Please check and try again."
  | Some (JNum 21408) => Some "Permission denied for this phone number."
  | Some (JNum 21610) => Some "Message blocked by carrier. Number may be on do-not-contact list."
  | Some (JNum 21614) => Some "This is not a valid mobile number."
  | Some (JNum 21608) => Some "This phone number is not SMS-capable."
  | Some (JNum 30007) => Some "Message filtered as spam. Contact support."
  | _ => None
  end.

Section WithEnv.
Variable env : Env.

Definition sendSMSOTP (toPhoneNumber otp : string) : M TwilioResult :=
  let maskedPhone := maskPhoneNumber toPhoneNumber in
  if negb (twilio_credentials env) || falsy (fromPhoneNumber env) then
    console_log ["[Twilio] TEST MODE - Would send SMS to " +:+ maskedPhone];;
    console_log ["[Twilio] TEST MODE - OTP: " +:+ otp];;
    console_log ["[Twilio] TEST MODE - Configure credentials in .env to send real SMS"];;
    t ← date_now env;
    record (Dispatch toPhoneNumber otp true);;
    mret (TwilioOk ("SM_TEST_" +:+ pretty t) "queued" "sms-test")
  else
    try_catch
      (console_log ["[Twilio] Sending SMS OTP to " +:+ maskedPhone];;
       message ← await (messages_create env toPhoneNumber
                          (default "" (fromPhoneNumber env))
                          (otp +:+ " is your UnitWise verification code. Valid for 5 minutes. Do not share this code with anyone."));
       console_log ["[Twilio] ✓ SMS sent successfully to " +:+ maskedPhone];;
       console_log ["[Twilio] Message SID: " +:+ sid message];;
       console_log ["[Twilio] Status: " +:+ msg_status message];;
       record (Dispatch toPhoneNumber otp true);;
       mret (TwilioOk (sid message) (msg_status message) "sms"))
      (fun error =>
         console_error ["[Twilio] ✗ Failed to send SMS to " +:+ maskedPhone];;
         console_error ["[Twilio] Error code: " +:+ show_val (err_code error)];;
         console_error ["[Twilio] Error message: " +:+ err_message error];;
         record (Dispatch toPhoneNumber otp false);;
         mret (TwilioFailed
                 (if truthy_val (err_code error)
                  then default JNull (err_code error)
                  else JStr "TWILIO_ERROR")
                 (default "Failed to send verification code. Please try again."
                    (errorMessages (err_code error)))
                 "sms")).

(** WhatsApp is not configured yet: the message goes out as an SMS. *)
Definition sendWhatsAppOTP (toPhoneNumber otp : string) : M TwilioResult :=
  console_log ["[Twilio] WhatsApp not yet configured, using SMS"];;
  sendSMSOTP toPhoneNumber otp.
End WithEnv.
End TwilioClient.

(** ** sendOtp.js *)

(** [crypto.randomInt(min, max)]: an integer of [min, max). *)
Definition randomInt (env : Env) (min max : Z) : Z :=
  min + entropy env mod (max - min).

Inductive RateLimitCheck :=
  | Allowed
  | Limited (waitMinutes : Z).

Definition json (s : Z) (o : JObj) : M Response :=
  mret {| status := s; payload := o |}.

Module SendOtp.
Import TwilioClient.

(** [/^\+[1-9]\d{1,14}$/] *)
Definition isValidPhoneNumber (phone : string) : bool :=
  match phone with
  | String "+" (String c rest) =>
      (49 <=? nat_of_ascii c)%nat && (nat_of_ascii c <=? 57)%nat
      && all_digits rest
      && (1 <=? String.length rest)%nat && (String.length rest <=? 14)%nat
  | _ => false
  end.

Section WithEnv.
Variable env : Env.

Definition generateSecureOTP : string :=
  let otp := randomInt env 100000 1000000 in
  pretty otp.

Definition checkRateLimit (phone : string) : M RateLimitCheck :=
  t ← date_now env;
  let fifteenMinutesAgo := t - 15 * 60 * 1000 in
  try_catch
    (recentSessions ← db_query env OtpSessions phone fifteenMinutesAgo;
     let sessionCount := Z.of_nat (length recentSessions) in
     if 3 <=? sessionCount then
       match recentSessions with
       | oldestSession :: _ =>
           let oldestTime := createdAt oldestSession.2 in
           t' ← date_now env;
           let waitMillis := (oldestTime + 15 * 60 * 1000) - t' in
           let waitMinutes := ceil_div waitMillis 60000 in
           mret (Limited waitMinutes)
       | [] => throw {| err_message := "Cannot read properties of undefined";
                        err_code := None |}
       end
     else mret Allowed)
    (fun error =>
       console_error ["[sendOtp] Rate limit check failed:"; err_message error];;
       mret Allowed).

Definition sendOtp (req : Request) : M Response :=
  if negb (String.eqb (method req) "POST") then
    json 405 [("success", JBool false);
              ("code", JStr "METHOD_NOT_ALLOWED");
              ("message", JStr "Only POST requests are allowed")]
  else
    try_catch
      (let name := b_name (body req) in
       let email := b_email (body req) in
       let source := b_source (body req) in
       if falsy (b_phone (body req)) then
         json 400 [("success", JBool false);
                   ("code", JStr "MISSING_PHONE");
                   ("message", JStr "Phone number is required")]
       else
         let phone := default "" (b_phone (body req)) in
         if negb (isValidPhoneNumber phone) then
           json 400 [("success", JBool false);
                     ("code", JStr "INVALID_PHONE_FORMAT");
                     ("message", JStr "Phone number must be in E.164 format (e.g., +2348100000000)")]
         else
           let maskedPhone := maskPhoneNumber phone in
           console_log ["[sendOtp] OTP request for " +:+ maskedPhone];;
           rateLimitCheck ← checkRateLimit phone;
           match rateLimitCheck with
           | Limited waitMinutes =>
               console_warn ["[sendOtp] Rate limit exceeded for " +:+ maskedPhone];;
               json 429 [("success", JBool false);
                         ("code", JStr "RATE_LIMIT_EXCEEDED");
                         ("message", JStr ("Too many OTP requests. Please try again in "
                                           +:+ pretty waitMinutes +:+ " minutes."));
                         ("retryAfter", JNum (waitMinutes * 60))]
           | Allowed =>
               let otp := generateSecureOTP in
               console_log ["[sendOtp] Generated OTP for " +:+ maskedPhone];;
               console_log ["[sendOtp] TEST MODE - OTP: " +:+ otp];;
               otpHash ← hash env otp (saltRounds env);
               let sessionId := auto_id env in
               now ← date_now env;
               let expiresAt := now + 5 * 60 * 1000 in
               twilioResult ←
                 (if String.eqb (default "" source) "sms"
                  then sendSMSOTP env phone otp
                  else sendWhatsAppOTP env phone otp);
               match twilioResult with
               | TwilioFailed error message _ =>
                   console_error ["[sendOtp] Twilio send failed for " +:+ maskedPhone +:+ ":";
                                  show_val (Some error)];;
                   json 500 [("success", JBool false);
                             ("code", error);
                             ("message", JStr (or_else (Some message)
                                                "Failed to send OTP. Please try again."))]
               | TwilioOk messageSid _ _ =>
                   let sessionData :=
                     {| phone := phone; otpHash := otpHash; createdAt := now;
                        expiresAt := expiresAt; attempts := 0;
                        source := Some (or_else source "whatsapp");
                        used := false; name := or_null name; email := or_null email;
                        messageSid := messageSid |} in
                   db_set env OtpSessions sessionId sessionData;;
                   console_log ["[sendOtp] OTP session created for " +:+ maskedPhone
                                +:+ ". SessionID: " +:+ sessionId];;
                   json 200 [("success", JBool true);
                             ("sessionId", JStr sessionId);
                             ("messageSid", JStr messageSid);
                             ("message", JStr ("OTP sent via " +:+ or_else source "WhatsApp"));
                             ("expiresIn", JNum 300);
                             ("testOtp", JStr otp)]
               end
           end)
      (fun error =>
         console_error ["[sendOtp] Unexpected error:"; err_message error;
                        show_val (err_code error)];;
         json 500 [("success", JBool false);
                   ("code", JStr "INTERNAL_ERROR");
                   ("message", JStr "An unexpected error occurred. Please try again later.")]).
End WithEnv.
End SendOtp.

(** ** verifyOtp.js *)

Module VerifyOtp.
Import TwilioClient.

(** [/^\d{6}$/] *)
Definition isValidOTP (otp : string) : bool :=
  (String.length otp =? 6)%nat && all_digits otp.

Record UserCheck := { exists_ : bool; uc_uid : string }.

Section WithEnv.
Variable env : Env.

Definition checkUserExists (phone : string) : M UserCheck :=
  try_catch
    (record (AuthGetUser phone);;
     userRecord ← await (getUserByPhoneNumber env phone);
     mret {| exists_ := true; uc_uid := uid userRecord |})
    (fun error =>
       if code_is (err_code error) "auth/user-not-found"
       then mret {| exists_ := false; uc_uid := "" |}
       else throw error).

Definition verifyOtp (req : Request) : M Response :=
  if negb (String.eqb (method req) "POST") then
    json 405 [("success", JBool false);
              ("code", JStr "METHOD_NOT_ALLOWED");
              ("message", JStr "Only POST requests are allowed")]
  else
    try_catch
      (if falsy (b_sessionId (body req)) || falsy (b_otp (body req))
          || falsy (b_phone (body req)) then
         json 400 [("success", JBool false);
                   ("code", JStr "MISSING_REQUIRED_FIELDS");
                   ("message", JStr "sessionId, otp, and phone are required")]
       else
         let sessionId := default "" (b_sessionId (body req)) in
         let otp := default "" (b_otp (body req)) in
         let phone := default "" (b_phone (body req)) in
         if negb (isValidOTP otp) then
           json 400 [("success", JBool false);
                     ("code", JStr "INVALID_OTP_FORMAT");
                     ("message", JStr "OTP must be 6 digits")]
         else
           let maskedPhone := maskPhoneNumber phone in
           console_log ["[verifyOtp] Verification attempt for " +:+ maskedPhone
                        +:+ ". SessionID: " +:+ sessionId];;
           sessionDoc ← db_get env OtpSessions sessionId;
           match sessionDoc with
           | None =>
               console_warn ["[verifyOtp] Session not found for " +:+ maskedPhone
                             +:+ ". SessionID: " +:+ sessionId];;
               json 404 [("success", JBool false);
                         ("code", JStr "SESSION_NOT_FOUND");
                         ("message", JStr "Invalid or expired session. Please request a new OTP.")]
           | Some sessionData =>
               if negb (String.eqb (Doc.phone sessionData) phone) then
                 console_warn ["[verifyOtp] Phone mismatch for SessionID: " +:+ sessionId];;
                 json 403 [("success", JBool false);
                           ("code", JStr "PHONE_MISMATCH");
                           ("message", JStr "Phone number does not match the session.")]
               else if Doc.used sessionData then
                 console_warn ["[verifyOtp] Attempted reuse of OTP for " +:+ maskedPhone];;
                 json 403 [("success", JBool false);
                           ("code", JStr "OTP_ALREADY_USED");
                           ("message", JStr "This OTP has already been used. Please request a new one.")]
               else
                 now ← date_now env;
                 if Doc.expiresAt sessionData <? now then
                   console_warn ["[verifyOtp] Expired OTP for " +:+ maskedPhone];;
                   db_delete env OtpSessions sessionId;;
                   json 403 [("success", JBool false);
                             ("code", JStr "EXPIRED_OTP");
                             ("message", JStr "OTP has expired. Please request a new one.")]
                 else if 5 <=? Doc.attempts sessionData then
                   console_warn ["[verifyOtp] Max attempts exceeded for " +:+ maskedPhone];;
                   db_delete env OtpSessions sessionId;;
                   json 403 [("success", JBool false);
                             ("code", JStr "MAX_ATTEMPTS_EXCEEDED");
                             ("message", JStr "Too many failed attempts. Please request a new OTP.")]
                 else
                   isValidOTPValue ← compare env otp (Doc.otpHash sessionData);
                   if negb isValidOTPValue then
                     let newAttempts := Doc.attempts sessionData + 1 in
                     db_update env OtpSessions sessionId (PatchAttempts newAttempts);;
                     let attemptsRemaining := 5 - newAttempts in
                     console_warn ["[verifyOtp] Invalid OTP for " +:+ maskedPhone
                                   +:+ ". Attempts: " +:+ pretty newAttempts +:+ "/5"];;
                     json 403 [("success", JBool false);
                               ("code", JStr "INVALID_OTP");
                               ("message", JStr ("Incorrect OTP. " +:+ pretty attemptsRemaining
                                                 +:+ " attempt"
                                                 +:+ (if attemptsRemaining =? 1 then "" else "s")
                                                 +:+ " remaining."));
                               ("attemptsRemaining", JNum attemptsRemaining)]
                   else
                     console_log ["[verifyOtp] Valid OTP for " +:+ maskedPhone];;
                     db_update env OtpSessions sessionId (PatchUsed true);;
                     setTimeout {| delay := 5000; t_coll := OtpSessions; t_doc := sessionId |};;
                     userCheck ← checkUserExists phone;
                     if exists_ userCheck then
                       record (AuthCreateToken (uc_uid userCheck));;
                       customToken ← await (createCustomToken env (uc_uid userCheck));
                       console_log ["[verifyOtp] Existing user authenticated: " +:+ maskedPhone];;
                       json 200 [("success", JBool true);
                                 ("newUser", JBool false);
                                 ("uid", JStr (uc_uid userCheck));
                                 ("customToken", JStr customToken);
                                 ("phone", JStr phone);
                                 ("message", JStr "OTP verified. User authenticated.")]
                     else
                       record (AuthCreateUser phone);;
                       newUser ← await (createUser env phone);
                       record (AuthCreateToken (uid newUser));;
                       customToken ← await (createCustomToken env (uid newUser));
                       console_log ["[verifyOtp] New user created: " +:+ maskedPhone
                                    +:+ ". UID: " +:+ uid newUser];;
                       json 200 [("success", JBool true);
                                 ("newUser", JBool true);
                                 ("uid", JStr (uid newUser));
                                 ("customToken", JStr customToken);
                                 ("phone", JStr phone);
                                 ("name", opt_json (or_null (Doc.name sessionData)));
                                 ("email", opt_json (or_null (Doc.email sessionData)));
                                 ("message", JStr "OTP verified. Please create a password.")]
           end)
      (fun error =>
         console_error ["[verifyOtp] Unexpected error:"; err_message error;
                        show_val (err_code error)];;
         json 500 [("success", JBool false);
                   ("code", JStr "INTERNAL_ERROR");
                   ("message", JStr "An unexpected error occurred. Please try again later.")]).
End WithEnv.
End VerifyOtp.

(** ** resetPassword.js *)

Module ResetPassword.
Import TwilioClient.

Record PasswordValidation := { valid : bool; pv_message : string }.

Section WithEnv.
Variable env : Env.

Definition generateSecureOTP : string :=
  let otp := randomInt env 100000 1000000 in
  pretty otp.

Definition validatePassword (password : option string) : PasswordValidation :=
  let minLength := minLength env in
  if falsy password || (Z.of_nat (String.length (default "" password)) <? minLength) then
    {| valid := false;
       pv_message := "Password must be at least " +:+ pretty minLength
                     +:+ " characters long" |}
  else {| valid := true; pv_message := "" |}.

Definition checkResetRateLimit (phone : string) : M RateLimitCheck :=
  t ← date_now env;
  let fifteenMinutesAgo := t - 15 * 60 * 1000 in
  try_catch
    (recentResets ← db_query env PasswordResetSessions phone fifteenMinutesAgo;
     if 3 <=? Z.of_nat (length recentResets) then
       match recentResets with
       | oldestReset :: _ =>
           let oldestTime := createdAt oldestReset.2 in
           t' ← date_now env;
           let waitMillis := (oldestTime + 15 * 60 * 1000) - t' in
           let waitMinutes := ceil_div waitMillis 60000 in
           mret (Limited waitMinutes)
       | [] => throw {| err_message := "Cannot read properties of undefined";
                        err_code := None |}
       end
     else mret Allowed)
    (fun error =>
       console_error ["[resetPassword] Rate limit check failed:"; err_message error];;
       mret Allowed).

Definition handleRequestOTP (req : Request) : M Response :=
  if falsy (b_phone (body req))
     || negb (SendOtp.isValidPhoneNumber (default "" (b_phone (body req)))) then
    json 400 [("success", JBool false);
              ("code", JStr "INVALID_PHONE_FORMAT");
              ("message", JStr "Phone number is required and must be in E.164 format")]
  else
    let phone := default "" (b_phone (body req)) in
    let maskedPhone := maskPhoneNumber phone in
    console_log ["[resetPassword] OTP request for password reset: " +:+ maskedPhone];;
    rateLimitCheck ← checkResetRateLimit phone;
    match rateLimitCheck with
    | Limited waitMinutes =>
        console_warn ["[resetPassword] Rate limit exceeded for " +:+ maskedPhone];;
        json 429 [("success", JBool false);
                  ("code", JStr "RATE_LIMIT_EXCEEDED");
                  ("message", JStr ("Too many password reset requests. Try again in "
                                    +:+ pretty waitMinutes +:+ " minutes."));
                  ("retryAfter", JNum (waitMinutes * 60))]
    | Allowed =>
        known ←
          try_catch
            (record (AuthGetUser phone);;
             await (getUserByPhoneNumber env phone);;
             mret true)
            (fun error =>
               if code_is (err_code error) "auth/user-not-found" then
                 console_warn ["[resetPassword] User not found: " +:+ maskedPhone];;
                 mret false
               else throw error);
        if negb known then
          json 200 [("success", JBool true);
                    ("message", JStr "If an account with this phone number exists, an OTP has been sent.")]
        else
          let otp := generateSecureOTP in
          otpHash ← hash env otp (saltRounds env);
          let sessionId := auto_id env in
          now ← date_now env;
          let expiresAt := now + 5 * 60 * 1000 in
          twilioResult ← sendWhatsAppOTP env phone otp;
          match twilioResult with
          | TwilioFailed error message _ =>
              console_error ["[resetPassword] Failed to send OTP to " +:+ maskedPhone];;
              json 500 [("success", JBool false);
                        ("code", error);
                        ("message", JStr (or_else (Some message) "Failed to send OTP"))]
          | TwilioOk messageSid _ _ =>
              let sessionData :=
                {| phone := phone; otpHash := otpHash; createdAt := now;
                   expiresAt := expiresAt; attempts := 0; source := None;
                   used := false; name := None; email := None;
                   messageSid := messageSid |} in
              db_set env PasswordResetSessions sessionId sessionData;;
              console_log ["[resetPassword] OTP sent for password reset: " +:+ maskedPhone];;
              console_log ["[resetPassword] TEST MODE - OTP: " +:+ otp];;
              json 200 [("success", JBool true);
                        ("sessionId", JStr sessionId);
                        ("messageSid", JStr messageSid);
                        ("message", JStr "OTP sent to your phone");
                        ("expiresIn", JNum 300);
                        ("testOtp", JStr otp)]
          end
    end.

Definition handleResetPassword (req : Request) : M Response :=
  if falsy (b_sessionId (body req)) || falsy (b_otp (body req))
     || falsy (b_phone (body req)) || falsy (b_newPassword (body req)) then
    json 400 [("success", JBool false);
              ("code", JStr "MISSING_REQUIRED_FIELDS");
              ("message", JStr "sessionId, otp, phone, and newPassword are required")]
  else
    let sessionId := default "" (b_sessionId (body req)) in
    let otp := default "" (b_otp (body req)) in
    let phone := default "" (b_phone (body req)) in
    let newPassword := default "" (b_newPassword (body req)) in
    let maskedPhone := maskPhoneNumber phone in
    let passwordValidation := validatePassword (b_newPassword (body req)) in
    if negb (valid passwordValidation) then
      json 400 [("success", JBool false);
                ("code", JStr "WEAK_PASSWORD");
                ("message", JStr (pv_message passwordValidation))]
    else
      console_log ["[resetPassword] Verifying OTP for password reset: " +:+ maskedPhone];;
      sessionDoc ← db_get env PasswordResetSessions sessionId;
      match sessionDoc with
      | None =>
          console_warn ["[resetPassword] Session not found: " +:+ sessionId];;
          json 404 [("success", JBool false);
                    ("code", JStr "SESSION_NOT_FOUND");
                    ("message", JStr "Invalid or expired session")]
      | Some sessionData =>
          if negb (String.eqb (Doc.phone sessionData) phone) then
            console_warn ["[resetPassword] Phone mismatch for session " +:+ sessionId];;
            json 403 [("success", JBool false);
                      ("code", JStr "PHONE_MISMATCH");
                      ("message", JStr "Phone number does not match the session")]
          else if Doc.used sessionData then
            json 403 [("success", JBool false);
                      ("code", JStr "OTP_ALREADY_USED");
                      ("message", JStr "This OTP has already been used")]
          else
            now ← date_now env;
            if Doc.expiresAt sessionData <? now then
              db_delete env PasswordResetSessions sessionId;;
              json 403 [("success", JBool false);
                        ("code", JStr "EXPIRED_OTP");
                        ("message", JStr "OTP has expired")]
            else if 5 <=? Doc.attempts sessionData then
              db_delete env PasswordResetSessions sessionId;;
              json 403 [("success", JBool false);
                        ("code", JStr "MAX_ATTEMPTS_EXCEEDED");
                        ("message", JStr "Too many failed attempts")]
            else
              isValidOTP ← compare env otp (Doc.otpHash sessionData);
              if negb isValidOTP then
                let newAttempts := Doc.attempts sessionData + 1 in
                db_update env PasswordResetSessions sessionId (PatchAttempts newAttempts);;
                json 403 [("success", JBool false);
                          ("code", JStr "INVALID_OTP");
                          ("message", JStr ("Incorrect OTP. " +:+ pretty (5 - newAttempts)
                                            +:+ " attempts remaining"));
                          ("attemptsRemaining", JNum (5 - newAttempts))]
              else
                try_catch
                  (record (AuthGetUser phone);;
                   userRecord ← await (getUserByPhoneNumber env phone);
                   record (AuthUpdateUser (uid userRecord));;
                   await (updateUser env (uid userRecord) newPassword);;
                   db_update env PasswordResetSessions sessionId (PatchUsed true);;
                   setTimeout {| delay := 5000; t_coll := PasswordResetSessions;
                                 t_doc := sessionId |};;
                   console_log ["[resetPassword] Password reset successfully for "
                                +:+ maskedPhone];;
                   json 200 [("success", JBool true);
                             ("message", JStr "Password reset successfully")])
                  (fun error =>
                     console_error ["[resetPassword] Error updating password:";
                                    err_message error];;
                     if code_is (err_code error) "auth/user-not-found" then
                       json 404 [("success", JBool false);
                                 ("code", JStr "USER_NOT_FOUND");
                                 ("message", JStr "User not found")]
                     else throw error)
      end.

(** The quotation marks around the two action names in the last
    message are left out. *)
Definition resetPassword (req : Request) : M Response :=
  if negb (String.eqb (method req) "POST") then
    json 405 [("success", JBool false);
              ("code", JStr "METHOD_NOT_ALLOWED");
              ("message", JStr "Only POST requests are allowed")]
  else
    try_catch
      (let action := default "" (b_action (body req)) in
       if String.eqb action "request_otp" then handleRequestOTP req
       else if String.eqb action "reset_password" then handleResetPassword req
       else
         json 400 [("success", JBool false);
                   ("code", JStr "INVALID_ACTION");
                   ("message", JStr "action must be request_otp or reset_password")])
      (fun error =>
         console_error ["[resetPassword] Unexpected error:"; err_message error;
                        show_val (err_code error)];;
         json 500 [("success", JBool false);
                   ("code", JStr "INTERNAL_ERROR");
                   ("message", JStr "An unexpected error occurred")]).
End WithEnv.
End ResetPassword.

(** * The session lifecycle: vocabulary *)

(** What the caller sees of a run: the response, if the handler answered. *)
Definition reply (x : Res Response * World) : option Response :=
  match x.1 with
  | Ret r => Some r
  | Throw _ => None
  end.

(** The HTTP status and the machine-readable [code] of the answer. *)
Definition outcome (x : Res Response * World) : option (Z * option JVal) :=
  match reply x with
  | Some r => Some (status r, obj_get "code" (payload r))
  | None => None
  end.

Definition field (k : string) (x : Res Response * World) : option JVal :=
  match reply x with
  | Some r => obj_get k (payload r)
  | None => None
  end.

Definition failure (s : Z) (c : string) : option (Z * option JVal) :=
  Some (s, Some (JStr c)).

(** A verification request that passes validation: a POST carrying a
    session id, a six-digit code and a phone. *)
Definition verification_request (req : Request) (sessionId otp ph : string) : Prop :=
  method req = "POST"
  /\ b_sessionId (body req) = Some sessionId /\ sessionId <> ""
  /\ b_otp (body req) = Some otp /\ VerifyOtp.isValidOTP otp = true
  /\ b_phone (body req) = Some ph /\ ph <> "".

(** An issuance request that passes validation: a POST with an E.164 phone. *)
Definition issuance_request (req : Request) (ph : string) : Prop :=
  method req = "POST"
  /\ b_phone (body req) = Some ph
  /\ SendOtp.isValidPhoneNumber ph = true.

(** No operation on the collection rejects during the request. *)
Definition store_ok (env : Env) (c : Collection) : Prop :=
  forall op, db_fault env c op = None.

(** The Identity Provider answers: the account is found, or reported
    missing and then created, and a token is minted. *)
Definition identity_available (env : Env) (ph : string) : Prop :=
  (exists u t, getUserByPhoneNumber env ph = Ret u
               /\ createCustomToken env (uid u) = Ret t)
  \/ (exists e u t, getUserByPhoneNumber env ph = Throw e
                    /\ code_is (err_code e) "auth/user-not-found" = true
                    /\ createUser env ph = Ret u
                    /\ createCustomToken env (uid u) = Ret t).

(** One of the Identity Provider calls of the success path throws: the
    account lookup [checkUserExists] (an error other than
    [auth/user-not-found], which it handles itself), the token minting for
    an existing account, the account creation, or the token minting for the
    new account. *)
Definition identity_throws (env : Env) (ph : string) : Prop :=
  (exists e, getUserByPhoneNumber env ph = Throw e
             /\ code_is (err_code e) "auth/user-not-found" = false)
  \/ (exists u e, getUserByPhoneNumber env ph = Ret u
                  /\ createCustomToken env (uid u) = Throw e)
  \/ (exists e e', getUserByPhoneNumber env ph = Throw e
                   /\ code_is (err_code e) "auth/user-not-found" = true
                   /\ createUser env ph = Throw e')
  \/ (exists e u e', getUserByPhoneNumber env ph = Throw e
                     /\ code_is (err_code e) "auth/user-not-found" = true
                     /\ createUser env ph = Ret u
                     /\ createCustomToken env (uid u) = Throw e').

(** The transition rules of the session state machine as the
    specification lists them, first match winning. *)
Inductive Verdict :=
  | SESSION_NOT_FOUND
  | PHONE_MISMATCH
  | OTP_ALREADY_USED
  | EXPIRED_OTP
  | MAX_ATTEMPTS_EXCEEDED
  | INVALID_OTP
  | VERIFIED.

Definition transition (session : option Session) (ph : string) (now : Z)
    (matches_hash : string -> bool) : Verdict :=
  match session with
  | None => SESSION_NOT_FOUND
  | Some s =>
      if negb (String.eqb (phone s) ph) then PHONE_MISMATCH
      else if used s then OTP_ALREADY_USED
      else if expiresAt s <? now then EXPIRED_OTP
      else if 5 <=? attempts s then MAX_ATTEMPTS_EXCEEDED
      else if negb (matches_hash (otpHash s)) then INVALID_OTP
      else VERIFIED
  end.

Definition verdict_outcome (v : Verdict) : option (Z * option JVal) :=
  match v with
  | SESSION_NOT_FOUND => failure 404 "SESSION_NOT_FOUND"
  | PHONE_MISMATCH => failure 403 "PHONE_MISMATCH"
  | OTP_ALREADY_USED => failure 403 "OTP_ALREADY_USED"
  | EXPIRED_OTP => failure 403 "EXPIRED_OTP"
  | MAX_ATTEMPTS_EXCEEDED => failure 403 "MAX_ATTEMPTS_EXCEEDED"
  | INVALID_OTP => failure 403 "INVALID_OTP"
  | VERIFIED => Some (200, None)
  end.

(** The verdicts that are reached through the comparison. *)
Definition compared (v : Verdict) : bool :=
  match v with
  | INVALID_OTP | VERIFIED => true
  | _ => false
  end.

(** The sessions of a phone created after [since], in no particular order. *)
Definition recent (ph : string) (since : Z) (m : gmap string Session)
  : list (string * Session) :=
  filter (matches ph since) (map_to_list m).

Definition is_set (c : Call) : bool :=
  match c with
  | DbSet _ _ => true
  | _ => false
  end.

Definition is_delivered (c : Call) : bool :=
  match c with
  | Dispatch _ _ true => true
  | _ => false
  end.

Definition is_mark_used (sessionId : string) (c : Call) : bool :=
  match c with
  | DbUpdate OtpSessions id (PatchUsed true) => String.eqb id sessionId
  | _ => false
  end.

(** Every call of the trace that satisfies [Q] comes after one that
    satisfies [P] ([seen]: one was met already). *)
Fixpoint guarded (seen : bool) (P Q : Call -> bool) (l : list Call) : bool :=
  match l with
  | [] => true
  | c :: l' => (negb (Q c) || seen) && guarded (seen || P c) P Q l'
  end.

(** A run deletes a session of collection [c] only when the state machine
    found it expired or locked, and schedules a deletion (five seconds
    later, the session still being there when the run ends) only when it
    verified the code and marked the session used. *)
Definition spent_only (c : Collection) (env : Env) (req : Request) (w : World)
    (r : Res Response * World) : Prop :=
  let sessionId := default "" (b_sessionId (body req)) in
  let v := fun s => transition (Some s) (default "" (b_phone (body req)))
                      (clock env (clock_reads w))
                      (bcrypt_compare env (default "" (b_otp (body req)))) in
  (forall c' id, is_Some (docs c' w !! id) -> docs c' r.2 !! id = None ->
     c' = c /\ id = sessionId
     /\ exists s, docs c w !! sessionId = Some s
        /\ (v s = EXPIRED_OTP /\ outcome r = failure 403 "EXPIRED_OTP"
            \/ v s = MAX_ATTEMPTS_EXCEEDED
               /\ outcome r = failure 403 "MAX_ATTEMPTS_EXCEEDED"))
  /\ (timers r.2 = timers w
      \/ timers r.2 = (timers w ++ [{| delay := 5000; t_coll := c; t_doc := sessionId |}])%list
         /\ exists s, docs c w !! sessionId = Some s
            /\ v s = VERIFIED
            /\ docs c r.2 !! sessionId = Some (set_used true s)).

(** A run deletes no session and schedules no deletion. *)
Definition keeps_sessions (w : World) (r : Res Response * World) : Prop :=
  (forall c id, is_Some (docs c w !! id) -> is_Some (docs c r.2 !! id))
  /\ timers r.2 = timers w.

(** ** Symbolic execution of a handler

    [exec H] evaluates the run in [H : r = handler env req w] down to its
    result, branching on each condition the evaluation is stuck on, unless
    a hypothesis already decides it. *)

Ltac spine_head t :=
  lazymatch t with
  | ?f _ => spine_head f
  | _ => t
  end.

Ltac stuck t :=
  let h := spine_head t in
  lazymatch h with
  | match ?x with _ => _ end => stuck x
  | _ => t
  end.

Ltac simp_in H :=
  lazy beta iota zeta delta
    [mbind M_bind mret M_ret try_catch json record modify gets throw await
     console_log console_warn console_error setTimeout date_now
     db_call db_query db_get db_set db_update db_delete fire hash compare
     docs with_docs with_console with_timers with_calls with_clock_reads] in H;
  cbn [calls console timers otp_sessions password_reset_sessions clock_reads
       fst snd from_option id negb orb andb VerifyOtp.exists_ VerifyOtp.uc_uid
       t_coll t_doc] in H.

Ltac step H :=
  lazymatch type of H with
  | _ = ?rhs =>
      let x := stuck rhs in
      tryif constr_eq x rhs then fail
      else first
        [ match goal with E : x = _ |- _ => rewrite E in H end
        | lazymatch x with
          | negb ?y => match goal with E : y = _ |- _ => rewrite E in H end
          end
        | let E := fresh "E" in destruct x eqn:E; rewrite ?E in H ];
      simp_in H
  end.

Ltac exec H := simp_in H; repeat step H.

Ltac trace_simpl :=
  unfold calls_since, logs_since, outcome, field, reply, failure in *;
  cbn [calls console timers otp_sessions password_reset_sessions clock_reads
       fst snd status payload] in *;
  rewrite <- ?app_assoc, ?drop_app_length, ?drop_all in *; cbn [app] in *.

(** [H : c ∈ [c1; ...; cn]] with concrete calls: one case per element. *)
Ltac in_trace H :=
  repeat (apply elem_of_cons in H as [H | H]; [try discriminate H |]);
  try (apply elem_of_nil in H; destruct H).

(** The verdict of [transition] follows from the conditions met on the way. *)
Ltac by_conditions :=
  unfold transition;
  repeat match goal with
         | H : ?x = _ |- context [if ?x then _ else _] => rewrite H
         end;
  reflexivity.

(** A session that was there is there still: the run inserted or left. *)
Ltac kept :=
  let c := fresh "c" in let id := fresh "id" in
  let Hsome := fresh "Hsome" in let Hnone := fresh "Hnone" in
  intros c id Hsome Hnone; exfalso; destruct c;
  cbn [docs otp_sessions password_reset_sessions] in *;
  try (rewrite Hnone in Hsome; by destruct Hsome);
  match type of Hnone with
  | <[?k := _]> _ !! _ = None =>
      destruct (decide (k = id)) as [<- | ?];
      [ by rewrite lookup_insert_eq in Hnone
      | rewrite lookup_insert_ne in Hnone by done;
        rewrite Hnone in Hsome; by destruct Hsome ]
  end.

(** The run deleted one session: the one it found expired or locked. *)
Ltac deleted :=
  let c := fresh "c" in let id := fresh "id" in
  let Hsome := fresh "Hsome" in let Hnone := fresh "Hnone" in
  intros c id Hsome Hnone; destruct c;
  cbn [docs otp_sessions password_reset_sessions] in *;
  try (exfalso; rewrite Hnone in Hsome; by destruct Hsome);
  match type of Hnone with
  | delete ?k _ !! _ = None =>
      destruct (decide (k = id)) as [<- | ?];
      [ split; [reflexivity|]; split; [reflexivity|];
        eexists; split; [eassumption|];
        first [ left; split; [by_conditions | reflexivity]
              | right; split; [by_conditions | reflexivity] ]
      | exfalso; rewrite lookup_delete_ne in Hnone by done;
        rewrite Hnone in Hsome; by destruct Hsome ]
  end.

(** [c ∈ l] for a concrete trace [l]. *)
Ltac find_call := solve [repeat constructor].

(** ** Sample requests, collaborators and worlds *)

Module Sample.
Definition t0 : Z := 1700000000000.

Definition subscriber : string := "+2348100000000".

Definition empty_body : Body :=
  {| b_phone := None; b_name := None; b_email := None; b_source := None;
     b_sessionId := None; b_otp := None; b_action := None;
     b_newPassword := None |}.

Definition issue (ph : string) : Request :=
  {| method := "POST";
     body := {| b_phone := Some ph; b_name := None; b_email := None;
                b_source := None; b_sessionId := None; b_otp := None;
                b_action := None; b_newPassword := None |} |}.

Definition verify (sessionId otp ph : string) : Request :=
  {| method := "POST";
     body := {| b_phone := Some ph; b_name := None; b_email := None;
                b_source := None; b_sessionId := Some sessionId;
                b_otp := Some otp; b_action := None;
                b_newPassword := None |} |}.

Definition request_reset (ph : string) : Request :=
  {| method := "POST";
     body := {| b_phone := Some ph; b_name := None; b_email := None;
                b_source := None; b_sessionId := None; b_otp := None;
                b_action := Some "request_otp"; b_newPassword := None |} |}.

Definition no_fault : Collection -> StoreOp -> option JsError :=
  fun _ _ => None.

Definition unreachable : JsError :=
  {| err_message := "14 UNAVAILABLE"; err_code := Some (JNum 14) |}.

Definition query_fault : Collection -> StoreOp -> option JsError :=
  fun _ op =>
    match op with
    | OpQuery => Some unreachable
    | _ => None
    end.

Definition not_found : JsError :=
  {| err_message := "There is no user record"; 
     err_code := Some (JStr "auth/user-not-found") |}.

Definition accepted : Res TwilioMessage :=
  Ret {| sid := "SM123456789"; msg_status := "queued" |}.

Definition rejected : Res TwilioMessage :=
  Throw {| err_message := "not a valid mobile number"; err_code := Some (JNum 21614) |}.

(** bcrypt stands for a salted hash: here the salt is a fixed prefix. *)
Definition mk_env (clk : nat -> Z) (fault : Collection -> StoreOp -> option JsError)
    (sent : Res TwilioMessage) (lookup : Res UserRecord) (token : Res string) : Env :=
  {| clock := clk; entropy := 23456; auto_id := "sess1";
     saltRounds := 10; minLength := 6;
     bcrypt_hash := fun d _ => "$2b$10$" +:+ d;
     bcrypt_compare := fun d h => String.eqb ("$2b$10$" +:+ d) h;
     db_fault := fault;
     twilio_credentials := true; fromPhoneNumber := Some "+15005550006";
     messages_create := fun _ _ _ => sent;
     getUserByPhoneNumber := fun _ => lookup;
     createUser := fun _ => Ret {| uid := "uid-1" |};
     createCustomToken := fun _ => token;
     updateUser := fun _ _ => Ret tt |}.

Definition env_ok : Env :=
  mk_env (fun _ => t0) no_fault accepted (Throw not_found) (Ret "token-1").

(** A session issued [age] milliseconds before [t0] for the code 123456. *)
Definition session (ph : string) (age tries : Z) (consumed : bool) : Session :=
  {| phone := ph; otpHash := "$2b$10$123456"; createdAt := t0 - age;
     expiresAt := t0 - age + 5 * 60 * 1000; attempts := tries;
     source := Some "whatsapp"; used := consumed; name := None; email := None;
     messageSid := "SM123456789" |}.

Definition world (l : list (string * Session)) : World :=
  {| otp_sessions := list_to_map l; password_reset_sessions := ∅;
     console := []; timers := []; calls := []; clock_reads := 0 |}.

Definition reset_world (l : list (string * Session)) : World :=
  {| otp_sessions := ∅; password_reset_sessions := list_to_map l;
     console := []; timers := []; calls := []; clock_reads := 0 |}.
End Sample.

(** * The further properties: vocabulary *)

(** A session that reaches the comparison at [now], asked about from
    [ph]: bound to that phone, not used, not past its expiry (the expiry
    instant itself still counts), below the attempt limit. *)
Definition live (s : Session) (ph : string) (now : Z) : Prop :=
  phone s = ph /\ used s = false /\ now <= expiresAt s /\ attempts s < 5.

(** The world after the same verification request was sent [n] times. *)
Fixpoint tries (env : Env) (req : Request) (n : nat) (w : World) : World :=
  match n with
  | O => w
  | S n' => tries env req n' (VerifyOtp.verifyOtp env req w).2
  end.

(** A reset request that passes validation: a POST with the action
    [reset_password], the three fields of a verification (the code in any
    non-empty form) and a new password of the minimum length. *)
Definition reset_request (env : Env) (req : Request)
    (sessionId otp ph password : string) : Prop :=
  method req = "POST"
  /\ b_action (body req) = Some "reset_password"
  /\ b_sessionId (body req) = Some sessionId /\ sessionId <> ""
  /\ b_otp (body req) = Some otp /\ otp <> ""
  /\ b_phone (body req) = Some ph /\ ph <> ""
  /\ b_newPassword (body req) = Some password
  /\ minLength env <= Z.of_nat (String.length password)
  /\ password <> "".

(** The store operation behind a call, and whether the store rejects it
    during this request. *)
Definition store_op (c : Call) : option (Collection * StoreOp) :=
  match c with
  | DbQuery coll _ _ => Some (coll, OpQuery)
  | DbGet coll _ => Some (coll, OpGet)
  | DbSet coll _ => Some (coll, OpSet)
  | DbUpdate coll _ _ => Some (coll, OpUpdate)
  | DbDelete coll _ => Some (coll, OpDelete)
  | _ => None
  end.

Definition rejected_by_store (env : Env) (c : Call) : bool :=
  match store_op c with
  | Some (coll, op) =>
      match db_fault env coll op with
      | Some _ => true
      | None => false
      end
  | None => false
  end.

Definition is_reset_mark_used (c : Call) : bool :=
  match c with
  | DbUpdate PasswordResetSessions _ (PatchUsed true) => true
  | _ => false
  end.

Definition is_password_change (c : Call) : bool :=
  match c with
  | AuthUpdateUser _ => true
  | _ => false
  end.

Definition is_dispatch (c : Call) : bool :=
  match c with
  | Dispatch _ _ _ => true
  | _ => false
  end.

(** A session issued at sign-up, with a name, that expires at the very
    instant of the samples' clock. *)
Definition signup_session : Session :=
  {| phone := "+2348100000000"; otpHash := "$2b$10$123456";
     createdAt := 1700000000000 - 300000; expiresAt := 1700000000000;
     attempts := 3; source := Some "sms"; used := false;
     name := Some "Ada"; email := None; messageSid := "SM123456789" |}.

(** The session [sendOtp] stores for a request, given the id of the
    message. *)
Definition issued_session (env : Env) (req : Request) (ph : string) (now : Z)
    (sidm : string) : Session :=
  {| phone := ph;
     otpHash := bcrypt_hash env (SendOtp.generateSecureOTP env) (saltRounds env);
     createdAt := now; expiresAt := now + 5 * 60 * 1000; attempts := 0;
     source := Some (or_else (b_source (body req)) "whatsapp");
     used := false;
     name := or_null (b_name (body req)); email := or_null (b_email (body req));
     messageSid := sidm |}.

(** The reset session a successful request stores. *)
Definition issued_reset_session (env : Env) (ph : string) (now : Z) (sidm : string)
  : Session :=
  {| phone := ph;
     otpHash := bcrypt_hash env (ResetPassword.generateSecureOTP env) (saltRounds env);
     createdAt := now; expiresAt := now + 5 * 60 * 1000; attempts := 0;
     source := None; used := false; name := None; email := None;
     messageSid := sidm |}.

(** A request to change the password with the code of a reset session. *)
Definition change_password (sessionId otp ph password : string) : Request :=
  {| method := "POST";
     body := {| b_phone := Some ph; b_name := None; b_email := None;
                b_source := None; b_sessionId := Some sessionId;
                b_otp := Some otp; b_action := Some "reset_password";
                b_newPassword := Some password |} |}.

(** The collaborators of the samples, the account being registered. *)
Definition env_known : Env :=
  Sample.mk_env (fun _ => Sample.t0) Sample.no_fault Sample.accepted
    (Ret {| uid := "uid-1" |}) (Ret "token-1").

Definition verified (v : Verdict) : bool :=
  match v with
  | VERIFIED => true
  | _ => false
  end.

(** The handler answered, with one of the statuses listed, and the
    [success] flag and the [code] of the answer agree with the status:
    [success] is true and there is no [code] exactly on 200. *)
Definition answers (statuses : list Z) (r : Res Response * World) : Prop :=
  exists resp,
    r.1 = Ret resp
    /\ status resp ∈ statuses
    /\ obj_get "success" (payload resp) = Some (JBool (status resp =? 200))
    /\ (obj_get "code" (payload resp) = None <-> status resp = 200).

(** The run answered as [answers] asks, by evaluation. *)
Ltac answered :=
  eexists; split; [reflexivity|]; cbn [status payload];
  split; [find_call|]; split; [reflexivity|];
  split; [first [reflexivity | discriminate] | first [reflexivity | discriminate]].

(** No store call of a concrete trace was rejected, by the conditions met
    on the way. *)
Ltac none_rejected H :=
  let c := fresh "c" in let Hin := fresh "Hin" in let Hrej := fresh "Hrej" in
  destruct H as (c & Hin & Hrej); exfalso;
  repeat (apply elem_of_cons in Hin as [-> | Hin];
          [ cbn in Hrej;
            repeat match goal with
                   | E : db_fault _ _ _ = _ |- _ => rewrite E in Hrej
                   end;
            discriminate Hrej |]);
  apply elem_of_nil in Hin; destruct Hin.

(** * Lemmas *)

Lemma guarded_sound P Q l seen :
  guarded seen P Q l = true ->
  forall pre c post, l = (pre ++ c :: post)%list -> Q c = true ->
    seen = true \/ exists p, p ∈ pre /\ P p = true.
Proof.
  revert seen. induction l as [|a l IH]; intros seen Hg pre c post Heq Hq.
  - by destruct pre.
  - cbn in Hg. apply andb_prop in Hg as [H1 H2].
    destruct pre as [|b pre]; simplify_eq/=.
    + rewrite Hq in H1. cbn in H1. by left.
    + destruct (IH _ H2 _ _ _ eq_refl Hq) as [Hs | (p & Hp & HP)].
      * apply orb_prop in Hs as [-> | Hb]; [by left|].
        right. exists b. split; [left|done].
      * right. exists p. split; [by right|done].
Qed.

Lemma guarded_precedes P Q l :
  guarded false P Q l = true ->
  forall pre c post, l = (pre ++ c :: post)%list -> Q c = true ->
    exists p, p ∈ pre /\ P p = true.
Proof.
  intros Hg pre c post Heq Hq.
  by destruct (guarded_sound _ _ _ _ Hg _ _ _ Heq Hq).
Qed.

Lemma falsy_some s : s <> "" -> falsy (Some s) = false.
Proof. intros H. cbn. by apply String.eqb_neq. Qed.

Lemma isValidOTP_nonempty otp : VerifyOtp.isValidOTP otp = true -> otp <> "".
Proof. by intros H ->. Qed.

Lemma isValidPhoneNumber_nonempty ph : SendOtp.isValidPhoneNumber ph = true -> ph <> "".
Proof. by intros H ->. Qed.

Lemma post_method req : method req = "POST" -> negb (String.eqb (method req) "POST") = false.
Proof. intros ->. reflexivity. Qed.

Lemma verification_request_elim req sid otp ph :
  verification_request req sid otp ph ->
  negb (String.eqb (method req) "POST") = false
  /\ b_sessionId (body req) = Some sid /\ b_otp (body req) = Some otp
  /\ b_phone (body req) = Some ph
  /\ falsy (Some sid) || falsy (Some otp) || falsy (Some ph) = false
  /\ negb (VerifyOtp.isValidOTP otp) = false.
Proof.
  intros (Hm & Hs & Hs' & Ho & Hv & Hp & Hp').
  rewrite !falsy_some, Hv by eauto using isValidOTP_nonempty.
  repeat split; auto using post_method.
Qed.

Lemma issuance_request_elim req ph :
  issuance_request req ph ->
  negb (String.eqb (method req) "POST") = false
  /\ b_phone (body req) = Some ph
  /\ falsy (Some ph) = false
  /\ negb (SendOtp.isValidPhoneNumber ph) = false.
Proof.
  intros (Hm & Hp & Hv).
  rewrite falsy_some, Hv by eauto using isValidPhoneNumber_nonempty.
  repeat split; auto using post_method.
Qed.

(** *** The query of the rate limiter *)

#[global] Instance created_le_total : Total created_le.
Proof. intros a b. unfold created_le. lia. Qed.

#[global] Instance created_le_trans : Transitive created_le.
Proof. intros a b c. unfold created_le. lia. Qed.

Lemma query_docs_recent ph since m : query_docs ph since m ≡ₚ recent ph since m.
Proof. apply merge_sort_Permutation. Qed.

Lemma query_docs_length ph since m :
  length (query_docs ph since m) = length (recent ph since m).
Proof. by rewrite query_docs_recent. Qed.

(** [docs[0]] is the oldest session of the window. *)
Lemma query_docs_oldest ph since m d l :
  query_docs ph since m = d :: l ->
  d ∈ recent ph since m
  /\ forall d', d' ∈ recent ph since m -> createdAt d.2 <= createdAt d'.2.
Proof.
  intros Hq.
  assert (Hs : StronglySorted created_le (d :: l)).
  { rewrite <- Hq. apply StronglySorted_merge_sort; apply _. }
  apply StronglySorted_inv in Hs as [_ Hall].
  split.
  - rewrite <- query_docs_recent, Hq. left.
  - intros d' Hd'. rewrite <- query_docs_recent, Hq in Hd'.
    apply elem_of_cons in Hd' as [-> | Hd']; [lia|].
    rewrite Forall_forall in Hall. by apply Hall.
Qed.

Lemma ceil_div_minutes a :
  0 < a <= 900000 -> 1 <= ceil_div a 60000 <= 15.
Proof. intros H. unfold ceil_div. Z.div_mod_to_equations. lia. Qed.

(** *** The state machine, path by path *)

(** A session that is marked used answers OTP_ALREADY_USED, whatever the
    code and however old the session. *)
Lemma used_session_rejected env req w sid otp ph s :
  verification_request req sid otp ph ->
  db_fault env OtpSessions OpGet = None ->
  otp_sessions w !! sid = Some s ->
  phone s = ph ->
  used s = true ->
  outcome (VerifyOtp.verifyOtp env req w) = failure 403 "OTP_ALREADY_USED".
Proof.
  intros Hreq Hget Hs Hphone Hused.
  apply verification_request_elim in Hreq as (Hpost & Hsid & Hotp & Hph & Hmiss & Hfmt).
  apply String.eqb_eq in Hphone.
  remember (VerifyOtp.verifyOtp env req w) as r eqn:Hr.
  unfold VerifyOtp.verifyOtp in Hr. rewrite Hsid, Hotp, Hph in Hr.
  exec Hr. by subst r.
Qed.

(** At issuance the phone is validated: a missing or malformed phone is
    answered 400 and the world is left as it was. *)
Lemma malformed_issuance_rejected env req w :
  method req = "POST" ->
  falsy (b_phone (body req)) = true
  \/ SendOtp.isValidPhoneNumber (default "" (b_phone (body req))) = false ->
  let r := SendOtp.sendOtp env req w in
  (outcome r = failure 400 "MISSING_PHONE"
   \/ outcome r = failure 400 "INVALID_PHONE_FORMAT")
  /\ r.2 = w.
Proof.
  intros Hm Hbad r. apply post_method in Hm as Hpost.
  assert (Hr : r = SendOtp.sendOtp env req w) by reflexivity. clearbody r.
  unfold SendOtp.sendOtp in Hr. simp_in Hr. step Hr. step Hr.
  - subst r. trace_simpl. auto.
  - step Hr.
    + subst r. trace_simpl. auto.
    + exfalso. apply negb_false_iff in E0. destruct Hbad; congruence.
Qed.

Lemma mark_used_precedes sid l :
  guarded false (is_mark_used sid) is_auth_call l = true ->
  forall pre c post, l = (pre ++ c :: post)%list -> is_auth_call c = true ->
    DbUpdate OtpSessions sid (PatchUsed true) ∈ pre.
Proof.
  intros Hg pre c post Hl Hc.
  destruct (guarded_precedes _ _ _ Hg _ _ _ Hl Hc) as (p & Hp & Hm).
  destruct p as [| | | [] id [|[]] | | | | | | | |]; try discriminate Hm.
  cbn in Hm. apply String.eqb_eq in Hm. by subst id.
Qed.

Lemma verifyOtp_spent_only env req w :
  spent_only OtpSessions env req w (VerifyOtp.verifyOtp env req w).
Proof.
  remember (VerifyOtp.verifyOtp env req w) as r eqn:Hr.
  unfold VerifyOtp.verifyOtp, VerifyOtp.checkUserExists in Hr.
  exec Hr; subst r; unfold spent_only; trace_simpl.
  all: split;
    [ first [kept | deleted]
    | first [ by left
            | right; split; [reflexivity|];
              eexists; split; [eassumption|]; split;
              [by_conditions | apply lookup_insert_eq] ] ].
Qed.

Lemma resetPassword_spent_only env req w :
  spent_only PasswordResetSessions env req w (ResetPassword.resetPassword env req w).
Proof.
  remember (ResetPassword.resetPassword env req w) as r eqn:Hr.
  unfold ResetPassword.resetPassword, ResetPassword.handleRequestOTP,
    ResetPassword.handleResetPassword, ResetPassword.checkResetRateLimit,
    TwilioClient.sendWhatsAppOTP, TwilioClient.sendSMSOTP in Hr.
  exec Hr; subst r; unfold spent_only; trace_simpl.
  all: split;
    [ first [kept | deleted]
    | first [ by left
            | right; split; [reflexivity|];
              eexists; split; [eassumption|]; split;
              [by_conditions | apply lookup_insert_eq] ] ].
Qed.

Lemma sendOtp_keeps_sessions env req w :
  keeps_sessions w (SendOtp.sendOtp env req w).
Proof.
  remember (SendOtp.sendOtp env req w) as r eqn:Hr.
  unfold SendOtp.sendOtp, SendOtp.checkRateLimit, TwilioClient.sendWhatsAppOTP,
    TwilioClient.sendSMSOTP in Hr.
  exec Hr; subst r; unfold keeps_sessions; trace_simpl.
  all: split; [|reflexivity].
  all: intros c id Hsome; destruct c;
       cbn [docs otp_sessions password_reset_sessions] in *; try done.
  all: destruct (decide (auto_id env = id)) as [<- | ?];
       [rewrite lookup_insert_eq | rewrite lookup_insert_ne by done]; done.
Qed.

Lemma fire_deletes_its_session env t w c id :
  is_Some (docs c w !! id) -> docs c (fire env t w).2 !! id = None ->
  c = t_coll t /\ id = t_doc t.
Proof.
  remember (fire env t w) as r eqn:Hr. destruct t as [d tc td].
  exec Hr; subst r; cbn [snd t_coll t_doc].
  - intros Hsome Hnone. exfalso. destruct c; cbn in *;
      rewrite Hnone in Hsome; by destruct Hsome.
  - intros Hsome Hnone.
    destruct c, tc; cbn in *;
      try (exfalso; rewrite Hnone in Hsome; by destruct Hsome).
    all: destruct (decide (td = id)) as [<- | ?]; [done|].
    all: exfalso; rewrite lookup_delete_ne in Hnone by done.
    all: rewrite Hnone in Hsome; by destruct Hsome.
Qed.

(** * The claims *)

Import Sample.

(** C1 (the code does not keep it).  The claim: the plaintext code never
    leaves through the issuance result or the log.  The handler does the
    opposite on every successful issuance: the 200 answer carries the
    generated code under [testOtp], and a console line spells it out. *)
Theorem issuance_discloses_code env req w resp :
  (SendOtp.sendOtp env req w).1 = Ret resp ->
  status resp = 200 ->
  obj_get "testOtp" (payload resp) = Some (JStr (SendOtp.generateSecureOTP env))
  /\ {| level := LLog;
        args := ["[sendOtp] TEST MODE - OTP: " +:+ SendOtp.generateSecureOTP env] |}
     ∈ logs_since w (SendOtp.sendOtp env req w).2.
Proof.
  remember (SendOtp.sendOtp env req w) as r eqn:Hr.
  intros Hret Hstatus.
  unfold SendOtp.sendOtp, SendOtp.checkRateLimit, TwilioClient.sendWhatsAppOTP,
    TwilioClient.sendSMSOTP in Hr.
  exec Hr; subst r; cbn [fst] in Hret; simplify_eq; try discriminate Hstatus.
  all: trace_simpl; (split; [reflexivity|]).
  all: rewrite !elem_of_cons; tauto.
Qed.

(** The request [{phone: '+2348100000000'}] on an empty store, the draw
    giving 123456: the six keys of the answer, the code among them, and
    the code in the log. *)
Lemma issuance_discloses_code_witness :
  let w := world [] in
  let r := SendOtp.sendOtp env_ok (issue subscriber) w in
  SendOtp.generateSecureOTP env_ok = "123456"
  /\ obj_keys (payload (default {| status := 0; payload := [] |} (reply r)))
     = ["success"; "sessionId"; "messageSid"; "message"; "expiresIn"; "testOtp"]
  /\ field "testOtp" r = Some (JStr "123456")
  /\ existsb (log_mentions "123456") (logs_since w r.2) = true
  /\ (obj_get "testOtp"
        (payload (default {| status := 0; payload := [] |} (reply r)))
      = Some (JStr (SendOtp.generateSecureOTP env_ok))
      /\ {| level := LLog;
            args := ["[sendOtp] TEST MODE - OTP: " +:+ SendOtp.generateSecureOTP env_ok] |}
         ∈ logs_since w r.2).
Proof.
  cbv zeta. split; [by vm_compute|]. split; [by vm_compute|].
  split; [by vm_compute|]. split; [by vm_compute|].
  apply (issuance_discloses_code env_ok (issue subscriber) (world [])).
  - by vm_compute.
  - by vm_compute.
Defined.



(** C3.  In [sendOtp] and in the reset flow alike: when the dispatcher
    reports a failed send, both collections are as they were and the
    caller gets a 500; and a [set] on a session document is always
    preceded, in the same run, by a send that succeeded. *)
Theorem failed_delivery_persists_nothing env req w :
  (let r := SendOtp.sendOtp env req w in
   (forall to code, Dispatch to code false ∈ calls_since w r.2 ->
      otp_sessions r.2 = otp_sessions w
      /\ password_reset_sessions r.2 = password_reset_sessions w
      /\ exists resp, reply r = Some resp /\ status resp = 500)
   /\ (forall pre c post,
         calls_since w r.2 = (pre ++ c :: post)%list -> is_set c = true ->
         exists p, p ∈ pre /\ is_delivered p = true))
  /\ (let r := ResetPassword.resetPassword env req w in
      (forall to code, Dispatch to code false ∈ calls_since w r.2 ->
         otp_sessions r.2 = otp_sessions w
         /\ password_reset_sessions r.2 = password_reset_sessions w
         /\ exists resp, reply r = Some resp /\ status resp = 500)
      /\ (forall pre c post,
            calls_since w r.2 = (pre ++ c :: post)%list -> is_set c = true ->
            exists p, p ∈ pre /\ is_delivered p = true)).
Proof.
  split; intros r.
  - assert (Hr : r = SendOtp.sendOtp env req w) by reflexivity. clearbody r.
    unfold SendOtp.sendOtp, SendOtp.checkRateLimit, TwilioClient.sendWhatsAppOTP,
      TwilioClient.sendSMSOTP in Hr.
    exec Hr; subst r; trace_simpl.
    all: split; [intros to code Hin; in_trace Hin; eauto
                | apply guarded_precedes; reflexivity].
  - assert (Hr : r = ResetPassword.resetPassword env req w) by reflexivity. clearbody r.
    unfold ResetPassword.resetPassword, ResetPassword.handleRequestOTP,
      ResetPassword.handleResetPassword, ResetPassword.checkResetRateLimit,
      TwilioClient.sendWhatsAppOTP, TwilioClient.sendSMSOTP in Hr.
    exec Hr; subst r; trace_simpl.
    all: split; [intros to code Hin; in_trace Hin; eauto
                | apply guarded_precedes; reflexivity].
Qed.

(** Twilio turns the message down: nothing is stored, the answer is 500. *)
Lemma failed_delivery_witness :
  let env := mk_env (fun _ => t0) no_fault rejected (Throw not_found) (Ret "token-1") in
  let w := world [] in
  let r := SendOtp.sendOtp env (issue subscriber) w in
  Dispatch subscriber "123456" false ∈ calls_since w r.2
  /\ otp_sessions r.2 = otp_sessions w
  /\ password_reset_sessions r.2 = password_reset_sessions w
  /\ exists resp, reply r = Some resp /\ status resp = 500.
Proof.
  cbv zeta. split; [apply list_elem_of_In; vm_compute; tauto|].
  apply (proj1 (proj1 (failed_delivery_persists_nothing
                         (mk_env (fun _ => t0) no_fault rejected (Throw not_found)
                            (Ret "token-1"))
                         (issue subscriber) (world []))) subscriber "123456").
  apply list_elem_of_In; vm_compute; tauto.
Defined.

(** C4, as amended.  A session that reaches the attempt check (its phone
    is the request's, it is not used and not expired) with [attempts >= 5]
    fails with MAX_ATTEMPTS_EXCEEDED whatever the submitted code is, the
    code not even being compared, and the session is deleted. *)
Theorem attempt_limit_locks_session env req w sid otp ph s :
  verification_request req sid otp ph ->
  store_ok env OtpSessions ->
  otp_sessions w !! sid = Some s ->
  phone s = ph ->
  used s = false ->
  clock env (clock_reads w) <= expiresAt s ->
  5 <= attempts s ->
  let r := VerifyOtp.verifyOtp env req w in
  outcome r = failure 403 "MAX_ATTEMPTS_EXCEEDED"
  /\ otp_sessions r.2 = delete sid (otp_sessions w)
  /\ existsb is_compare (calls_since w r.2) = false.
Proof.
  intros Hreq Hstore Hs Hphone Hused Hnow Hmax r.
  apply verification_request_elim in Hreq as (Hpost & Hsid & Hotp & Hph & Hmiss & Hfmt).
  pose proof (Hstore OpGet) as Hget.
  pose proof (Hstore OpDelete) as Hdel.
  apply String.eqb_eq in Hphone.
  apply Z.ltb_ge in Hnow. apply Z.leb_le in Hmax.
  assert (Hr : r = VerifyOtp.verifyOtp env req w) by reflexivity. clearbody r.
  unfold VerifyOtp.verifyOtp in Hr. rewrite Hsid, Hotp, Hph in Hr.
  exec Hr. subst r. trace_simpl. done.
Qed.

Lemma attempt_limit_witness :
  let w := world [("sess1", session subscriber 60000 5 false)] in
  let r := VerifyOtp.verifyOtp env_ok (verify "sess1" "123456" subscriber) w in
  outcome r = failure 403 "MAX_ATTEMPTS_EXCEEDED"
  /\ otp_sessions r.2 = delete "sess1" (otp_sessions w)
  /\ existsb is_compare (calls_since w r.2) = false.
Proof.
  apply (attempt_limit_locks_session env_ok (verify "sess1" "123456" subscriber)
           (world [("sess1", session subscriber 60000 5 false)])
           "sess1" "123456" subscriber (session subscriber 60000 5 false)).
  - by vm_compute.
  - intros op. reflexivity.
  - by vm_compute.
  - reflexivity.
  - reflexivity.
  - by vm_compute.
  - by vm_compute.
Defined.

(** C4 as stated fails: a session with five attempts, asked about with
    another phone, answers PHONE_MISMATCH and stays in the store. *)
Lemma attempt_limit_counterexample :
  let w := world [("sess1", session subscriber 60000 5 false)] in
  let r := VerifyOtp.verifyOtp env_ok (verify "sess1" "123456" "+2348111111111") w in
  (exists s, otp_sessions w !! "sess1" = Some s /\ 5 <= attempts s)
  /\ outcome r = failure 403 "PHONE_MISMATCH"
  /\ outcome r <> failure 403 "MAX_ATTEMPTS_EXCEEDED"
  /\ otp_sessions r.2 !! "sess1" = Some (session subscriber 60000 5 false).
Proof.
  cbv zeta. split; [|by vm_compute].
  exists (session subscriber 60000 5 false). by vm_compute.
Qed.




(** C6.  When the query of the rate limiter rejects, [checkRateLimit] and
    [checkResetRateLimit] answer [allowed: true]; a valid issuance request
    is then not turned down with 429 but goes on to generate a code and
    hand it to the dispatcher, and a valid reset request goes on to the
    account lookup. *)
Theorem rate_limiter_fails_open env req w ph e e' :
  db_fault env OtpSessions OpQuery = Some e ->
  db_fault env PasswordResetSessions OpQuery = Some e' ->
  issuance_request req ph ->
  (SendOtp.checkRateLimit env ph w).1 = Ret Allowed
  /\ (ResetPassword.checkResetRateLimit env ph w).1 = Ret Allowed
  /\ (let r := SendOtp.sendOtp env req w in
      (exists resp, reply r = Some resp /\ status resp <> 429)
      /\ exists ok, Dispatch ph (SendOtp.generateSecureOTP env) ok ∈ calls_since w r.2)
  /\ (b_action (body req) = Some "request_otp" ->
      let r := ResetPassword.resetPassword env req w in
      (exists resp, reply r = Some resp /\ status resp <> 429)
      /\ AuthGetUser ph ∈ calls_since w r.2).
Proof.
  intros Hq Hq' Hreq.
  apply issuance_request_elim in Hreq as (Hpost & Hph & Hne & Hvalid).
  split; [|split; [|split]].
  - remember (SendOtp.checkRateLimit env ph w) as r eqn:Hr.
    unfold SendOtp.checkRateLimit in Hr. exec Hr. by subst r.
  - remember (ResetPassword.checkResetRateLimit env ph w) as r eqn:Hr.
    unfold ResetPassword.checkResetRateLimit in Hr. exec Hr. by subst r.
  - intros r. assert (Hr : r = SendOtp.sendOtp env req w) by reflexivity. clearbody r.
    unfold SendOtp.sendOtp, SendOtp.checkRateLimit, TwilioClient.sendWhatsAppOTP,
      TwilioClient.sendSMSOTP in Hr.
    rewrite Hph in Hr.
    exec Hr; subst r; trace_simpl.
    all: split; [eexists; split; [reflexivity|done]|].
    all: eexists; find_call.
  - intros Hact r.
    assert (Hr : r = ResetPassword.resetPassword env req w) by reflexivity. clearbody r.
    unfold ResetPassword.resetPassword, ResetPassword.handleRequestOTP,
      ResetPassword.checkResetRateLimit,
      TwilioClient.sendWhatsAppOTP, TwilioClient.sendSMSOTP in Hr.
    rewrite Hph, Hact in Hr. cbn [from_option id] in Hr.
    rewrite String.eqb_refl in Hr.
    assert (Hor : falsy (Some ph) || negb (SendOtp.isValidPhoneNumber ph) = false)
      by (by rewrite Hne, Hvalid).
    exec Hr; subst r; trace_simpl.
    all: split; [eexists; split; [reflexivity|done]|].
    all: find_call.
Qed.

(** Three recent sessions, which would trip the limiter, and a store that
    cannot be queried. *)
Lemma rate_limiter_fails_open_witness :
  let env := mk_env (fun _ => t0) query_fault accepted (Throw not_found) (Ret "token-1") in
  let req := request_reset subscriber in
  let w := world [("a", session subscriber 60000 0 false);
                  ("b", session subscriber 50000 0 false);
                  ("c", session subscriber 40000 0 false)] in
  (SendOtp.checkRateLimit env subscriber w).1 = Ret Allowed
  /\ (ResetPassword.checkResetRateLimit env subscriber w).1 = Ret Allowed
  /\ (let r := SendOtp.sendOtp env req w in
      (exists resp, reply r = Some resp /\ status resp <> 429)
      /\ exists ok, Dispatch subscriber (SendOtp.generateSecureOTP env) ok
                    ∈ calls_since w r.2)
  /\ (b_action (body req) = Some "request_otp" ->
      let r := ResetPassword.resetPassword env req w in
      (exists resp, reply r = Some resp /\ status resp <> 429)
      /\ AuthGetUser subscriber ∈ calls_since w r.2).
Proof.
  apply (rate_limiter_fails_open
           (mk_env (fun _ => t0) query_fault accepted (Throw not_found) (Ret "token-1"))
           (request_reset subscriber)
           (world [("a", session subscriber 60000 0 false);
                   ("b", session subscriber 50000 0 false);
                   ("c", session subscriber 40000 0 false)])
           subscriber unreachable unreachable).
  - reflexivity.
  - reflexivity.
  - by vm_compute.
Defined.

(** C7.  A verification request that passes validation and names a
    session bound to another phone is answered 403 PHONE_MISMATCH; the
    only call made is the read of the session, and both collections and
    the timers are as before: no attempt counted, nothing marked used,
    nothing deleted. *)
Theorem phone_mismatch_leaves_session env req w sid otp ph s :
  verification_request req sid otp ph ->
  db_fault env OtpSessions OpGet = None ->
  otp_sessions w !! sid = Some s ->
  phone s <> ph ->
  let r := VerifyOtp.verifyOtp env req w in
  outcome r = failure 403 "PHONE_MISMATCH"
  /\ otp_sessions r.2 = otp_sessions w
  /\ password_reset_sessions r.2 = password_reset_sessions w
  /\ timers r.2 = timers w
  /\ calls_since w r.2 = [DbGet OtpSessions sid].
Proof.
  intros Hreq Hget Hs Hne r.
  apply verification_request_elim in Hreq as (Hpost & Hsid & Hotp & Hph & Hmiss & Hfmt).
  apply String.eqb_neq in Hne.
  assert (Hr : r = VerifyOtp.verifyOtp env req w) by reflexivity. clearbody r.
  unfold VerifyOtp.verifyOtp in Hr. rewrite Hsid, Hotp, Hph in Hr.
  exec Hr. subst r. trace_simpl. done.
Qed.

Lemma phone_mismatch_witness :
  let r := VerifyOtp.verifyOtp env_ok (verify "sess1" "123456" "+2348111111111")
             (world [("sess1", session subscriber 60000 2 false)]) in
  outcome r = failure 403 "PHONE_MISMATCH"
  /\ otp_sessions r.2 = otp_sessions (world [("sess1", session subscriber 60000 2 false)])
  /\ password_reset_sessions r.2 = ∅
  /\ timers r.2 = []
  /\ calls_since (world [("sess1", session subscriber 60000 2 false)]) r.2
     = [DbGet OtpSessions "sess1"].
Proof.
  apply (phone_mismatch_leaves_session env_ok
           (verify "sess1" "123456" "+2348111111111")
           (world [("sess1", session subscriber 60000 2 false)])
           "sess1" "123456" "+2348111111111" (session subscriber 60000 2 false)).
  - by vm_compute.
  - reflexivity.
  - by vm_compute.
  - by vm_compute.
Defined.

(** C8, as amended.  A verification request that lacks the session id, the
    code or the phone (or carries an empty one), or whose code is not six
    digits, is answered 400 with a validation code, and the world is left
    exactly as it was: no Session Store call, no attempt counted.  The
    format of the phone is not looked at. *)
Theorem malformed_verification_rejected env req w :
  method req = "POST" ->
  falsy (b_sessionId (body req)) = true
  \/ falsy (b_otp (body req)) = true
  \/ falsy (b_phone (body req)) = true
  \/ VerifyOtp.isValidOTP (default "" (b_otp (body req))) = false ->
  let r := VerifyOtp.verifyOtp env req w in
  (outcome r = failure 400 "MISSING_REQUIRED_FIELDS"
   \/ outcome r = failure 400 "INVALID_OTP_FORMAT")
  /\ r.2 = w
  /\ calls_since w r.2 = [].
Proof.
  intros Hm Hbad r. apply post_method in Hm as Hpost.
  assert (Hr : r = VerifyOtp.verifyOtp env req w) by reflexivity. clearbody r.
  unfold VerifyOtp.verifyOtp in Hr. simp_in Hr. step Hr. step Hr.
  - subst r. trace_simpl. auto.
  - step Hr.
    + subst r. trace_simpl. auto.
    + exfalso. apply negb_false_iff in E0.
      apply orb_false_elim in E as [E E3]. apply orb_false_elim in E as [E1 E2].
      destruct Hbad as [H | [H | [H | H]]]; congruence.
Qed.

(** A code of five digits. *)
Lemma malformed_verification_witness :
  let w := world [("sess1", session subscriber 60000 0 false)] in
  let r := VerifyOtp.verifyOtp env_ok (verify "sess1" "12345" subscriber) w in
  (outcome r = failure 400 "MISSING_REQUIRED_FIELDS"
   \/ outcome r = failure 400 "INVALID_OTP_FORMAT")
  /\ r.2 = w
  /\ calls_since w r.2 = [].
Proof.
  apply (malformed_verification_rejected env_ok (verify "sess1" "12345" subscriber)
           (world [("sess1", session subscriber 60000 0 false)])).
  - reflexivity.
  - right. right. right. reflexivity.
Defined.

(** C8 as stated fails for the phone: a request whose phone is not a phone
    number at all passes validation, and the session is read from the
    store before the request is turned down, with a session error and not
    a validation error. *)
Lemma malformed_phone_counterexample :
  let w := world [("sess1", session subscriber 60000 0 false)] in
  let r := VerifyOtp.verifyOtp env_ok (verify "sess1" "123456" "not-a-phone") w in
  SendOtp.isValidPhoneNumber "not-a-phone" = false
  /\ outcome r = failure 403 "PHONE_MISMATCH"
  /\ calls_since w r.2 = [DbGet OtpSessions "sess1"].
Proof. by vm_compute. Qed.

(** C9.  Over every handler that touches a session collection: [sendOtp]
    deletes nothing and schedules nothing; [verifyOtp] and [resetPassword]
    delete a session only when the state machine finds it expired or out
    of attempts (the answer then being EXPIRED_OTP, resp.
    MAX_ATTEMPTS_EXCEEDED), and after a successful verification they only
    schedule the deletion, five seconds later, the session still being in
    the store, marked used, when the run ends; a timer that fires deletes
    the session it was set for and no other. *)
Theorem sessions_deleted_only_when_spent env req w :
  keeps_sessions w (SendOtp.sendOtp env req w)
  /\ spent_only OtpSessions env req w (VerifyOtp.verifyOtp env req w)
  /\ spent_only PasswordResetSessions env req w (ResetPassword.resetPassword env req w)
  /\ (forall t c id,
        is_Some (docs c w !! id) -> docs c (fire env t w).2 !! id = None ->
        c = t_coll t /\ id = t_doc t).
Proof.
  split; [apply sendOtp_keeps_sessions|].
  split; [apply verifyOtp_spent_only|].
  split; [apply resetPassword_spent_only|].
  intros t c id. apply fire_deletes_its_session.
Qed.

(** An expired session: the verification deletes it and answers EXPIRED_OTP. *)
Lemma sessions_deleted_witness :
  let w := world [("sess1", session subscriber 400000 0 false)] in
  let r := VerifyOtp.verifyOtp env_ok (verify "sess1" "123456" subscriber) w in
  otp_sessions r.2 !! "sess1" = None
  /\ exists s, otp_sessions w !! "sess1" = Some s
     /\ (transition (Some s) subscriber t0 (bcrypt_compare env_ok "123456") = EXPIRED_OTP
         /\ outcome r = failure 403 "EXPIRED_OTP"
         \/ transition (Some s) subscriber t0 (bcrypt_compare env_ok "123456")
            = MAX_ATTEMPTS_EXCEEDED
            /\ outcome r = failure 403 "MAX_ATTEMPTS_EXCEEDED").
Proof.
  cbv zeta. split; [by vm_compute|].
  refine (proj2 (proj2 (proj1 (proj1 (proj2 (sessions_deleted_only_when_spent env_ok
                                (verify "sess1" "123456" subscriber)
                                (world [("sess1", session subscriber 400000 0 false)]))))
           OtpSessions "sess1" _ _))).
  - vm_compute. eauto.
  - by vm_compute.
Defined.

(** C10.  On the success path (the session is found, bound to the phone,
    unused, not expired, below the attempt limit, and the code matches),
    when one of the Identity Provider calls throws: the caller gets 500
    INTERNAL_ERROR; the session is in the store with [used = true]; in the
    trace the update that marks it used comes before every Identity
    Provider call; and the same request sent again on the resulting world
    is answered 403 OTP_ALREADY_USED. *)
Theorem used_survives_identity_failure env req w sid otp ph s :
  verification_request req sid otp ph ->
  store_ok env OtpSessions ->
  otp_sessions w !! sid = Some s ->
  phone s = ph ->
  used s = false ->
  clock env (clock_reads w) <= expiresAt s ->
  attempts s < 5 ->
  bcrypt_compare env otp (otpHash s) = true ->
  identity_throws env ph ->
  let r := VerifyOtp.verifyOtp env req w in
  outcome r = failure 500 "INTERNAL_ERROR"
  /\ otp_sessions r.2 !! sid = Some (set_used true s)
  /\ (forall pre c post,
        calls_since w r.2 = (pre ++ c :: post)%list -> is_auth_call c = true ->
        DbUpdate OtpSessions sid (PatchUsed true) ∈ pre)
  /\ (forall env',
        db_fault env' OtpSessions OpGet = None ->
        outcome (VerifyOtp.verifyOtp env' req r.2) = failure 403 "OTP_ALREADY_USED").
Proof.
  intros Hreq Hstore Hs Hphone Hused Hnow Hatt Hcmp Hid r.
  pose proof Hreq as Hreq'.
  apply verification_request_elim in Hreq as (Hpost & Hsid & Hotp & Hph & Hmiss & Hfmt).
  pose proof (Hstore OpGet) as Hget.
  pose proof (Hstore OpUpdate) as Hupd.
  apply String.eqb_eq in Hphone.
  apply Z.ltb_ge in Hnow.
  assert (Hlim : (5 <=? attempts s) = false) by (apply Z.leb_gt; lia).
  assert (Hr : r = VerifyOtp.verifyOtp env req w) by reflexivity. clearbody r.
  unfold VerifyOtp.verifyOtp, VerifyOtp.checkUserExists in Hr.
  rewrite Hsid, Hotp, Hph in Hr.
  destruct Hid as [(e & He & Hnf) | [(u & e & Hu & He) | [(e & e' & He & Hnf & He')
                   | (e & u & e' & He & Hnf & Hu & He')]]].
  all: exec Hr; subst r; trace_simpl.
  all: split; [done|]; split; [by rewrite lookup_insert_eq|].
  all: split; [apply mark_used_precedes; cbn; by rewrite String.eqb_refl|].
  all: intros env' Hget'.
  all: apply (used_session_rejected env' req _ sid otp ph (set_used true s));
       [done | done | apply lookup_insert_eq | by apply String.eqb_eq | done].
Qed.

(** The account is found and the token cannot be minted. *)
Lemma used_survives_witness :
  let env := mk_env (fun _ => t0) no_fault accepted (Ret {| uid := "uid-1" |})
               (Throw unreachable) in
  let req := verify "sess1" "123456" subscriber in
  let w := world [("sess1", session subscriber 60000 0 false)] in
  let r := VerifyOtp.verifyOtp env req w in
  outcome r = failure 500 "INTERNAL_ERROR"
  /\ otp_sessions r.2 !! "sess1" = Some (set_used true (session subscriber 60000 0 false))
  /\ (forall pre c post,
        calls_since w r.2 = (pre ++ c :: post)%list -> is_auth_call c = true ->
        DbUpdate OtpSessions "sess1" (PatchUsed true) ∈ pre)
  /\ (forall env',
        db_fault env' OtpSessions OpGet = None ->
        outcome (VerifyOtp.verifyOtp env' req r.2) = failure 403 "OTP_ALREADY_USED").
Proof.
  apply (used_survives_identity_failure
           (mk_env (fun _ => t0) no_fault accepted (Ret {| uid := "uid-1" |})
              (Throw unreachable))
           (verify "sess1" "123456" subscriber)
           (world [("sess1", session subscriber 60000 0 false)])
           "sess1" "123456" subscriber (session subscriber 60000 0 false)).
  - by vm_compute.
  - intros op. reflexivity.
  - by vm_compute.
  - reflexivity.
  - reflexivity.
  - by vm_compute.
  - by vm_compute.
  - by vm_compute.
  - right. left. exists {| uid := "uid-1" |}, unreachable. by vm_compute.
Defined.

(** * Further properties *)

(** ** One verification, path by path *)

Lemma live_elim s ph now :
  live s ph now ->
  String.eqb (phone s) ph = true /\ used s = false
  /\ (expiresAt s <? now) = false /\ (5 <=? attempts s) = false.
Proof.
  intros (Hp & Hu & He & Ha). repeat split; [by apply String.eqb_eq | done | lia | lia].
Qed.

(** A wrong code on a live session. *)
Lemma wrong_code_run env req w sid otp ph s :
  verification_request req sid otp ph ->
  store_ok env OtpSessions ->
  otp_sessions w !! sid = Some s ->
  live s ph (clock env (clock_reads w)) ->
  bcrypt_compare env otp (otpHash s) = false ->
  let r := VerifyOtp.verifyOtp env req w in
  outcome r = failure 403 "INVALID_OTP"
  /\ field "attemptsRemaining" r = Some (JNum (5 - (attempts s + 1)))
  /\ otp_sessions r.2 = <[sid := set_attempts (attempts s + 1) s]> (otp_sessions w)
  /\ password_reset_sessions r.2 = password_reset_sessions w
  /\ timers r.2 = timers w
  /\ clock_reads r.2 = S (clock_reads w)
  /\ calls_since w r.2
     = [DbGet OtpSessions sid; BcryptCompare otp (otpHash s) false;
        DbUpdate OtpSessions sid (PatchAttempts (attempts s + 1))].
Proof.
  intros Hreq Hstore Hs Hlive Hcmp r.
  apply verification_request_elim in Hreq as (Hpost & Hsid & Hotp & Hph & Hmiss & Hfmt).
  apply live_elim in Hlive as (Hphone & Hused & Hexp & Hlim).
  pose proof (Hstore OpGet) as Hget.
  pose proof (Hstore OpUpdate) as Hupd.
  assert (Hr : r = VerifyOtp.verifyOtp env req w) by reflexivity. clearbody r.
  unfold VerifyOtp.verifyOtp in Hr. rewrite Hsid, Hotp, Hph in Hr.
  exec Hr. subst r. trace_simpl. done.
Qed.

(** A session past its expiry. *)
Lemma expired_run env req w sid otp ph s :
  verification_request req sid otp ph ->
  store_ok env OtpSessions ->
  otp_sessions w !! sid = Some s ->
  phone s = ph ->
  used s = false ->
  expiresAt s < clock env (clock_reads w) ->
  let r := VerifyOtp.verifyOtp env req w in
  outcome r = failure 403 "EXPIRED_OTP"
  /\ otp_sessions r.2 = delete sid (otp_sessions w)
  /\ password_reset_sessions r.2 = password_reset_sessions w
  /\ timers r.2 = timers w
  /\ calls_since w r.2 = [DbGet OtpSessions sid; DbDelete OtpSessions sid].
Proof.
  intros Hreq Hstore Hs Hphone Hused Hexp r.
  apply verification_request_elim in Hreq as (Hpost & Hsid & Hotp & Hph & Hmiss & Hfmt).
  pose proof (Hstore OpGet) as Hget.
  pose proof (Hstore OpDelete) as Hdel.
  apply String.eqb_eq in Hphone. apply Z.ltb_lt in Hexp.
  assert (Hr : r = VerifyOtp.verifyOtp env req w) by reflexivity. clearbody r.
  unfold VerifyOtp.verifyOtp in Hr. rewrite Hsid, Hotp, Hph in Hr.
  exec Hr. subst r. trace_simpl. done.
Qed.

(** A session at the attempt limit. *)
Lemma locked_run env req w sid otp ph s :
  verification_request req sid otp ph ->
  store_ok env OtpSessions ->
  otp_sessions w !! sid = Some s ->
  phone s = ph ->
  used s = false ->
  clock env (clock_reads w) <= expiresAt s ->
  5 <= attempts s ->
  let r := VerifyOtp.verifyOtp env req w in
  outcome r = failure 403 "MAX_ATTEMPTS_EXCEEDED"
  /\ otp_sessions r.2 = delete sid (otp_sessions w).
Proof.
  intros Hreq Hstore Hs Hphone Hused Hnow Hmax r.
  apply verification_request_elim in Hreq as (Hpost & Hsid & Hotp & Hph & Hmiss & Hfmt).
  pose proof (Hstore OpGet) as Hget.
  pose proof (Hstore OpDelete) as Hdel.
  apply String.eqb_eq in Hphone.
  apply Z.ltb_ge in Hnow. apply Z.leb_le in Hmax.
  assert (Hr : r = VerifyOtp.verifyOtp env req w) by reflexivity. clearbody r.
  unfold VerifyOtp.verifyOtp in Hr. rewrite Hsid, Hotp, Hph in Hr.
  exec Hr. subst r. trace_simpl. done.
Qed.

(** The right code on a live session, the Identity Provider answering. *)
Lemma verified_run env req w sid otp ph s :
  verification_request req sid otp ph ->
  store_ok env OtpSessions ->
  otp_sessions w !! sid = Some s ->
  live s ph (clock env (clock_reads w)) ->
  bcrypt_compare env otp (otpHash s) = true ->
  identity_available env ph ->
  let r := VerifyOtp.verifyOtp env req w in
  outcome r = Some (200, None)
  /\ field "success" r = Some (JBool true)
  /\ field "phone" r = Some (JStr ph)
  /\ otp_sessions r.2 = <[sid := set_used true s]> (otp_sessions w)
  /\ password_reset_sessions r.2 = password_reset_sessions w
  /\ timers r.2
     = (timers w ++ [{| delay := 5000; t_coll := OtpSessions; t_doc := sid |}])%list
  /\ match getUserByPhoneNumber env ph with
     | Ret u =>
         exists t, createCustomToken env (uid u) = Ret t
         /\ field "newUser" r = Some (JBool false)
         /\ field "uid" r = Some (JStr (uid u))
         /\ field "customToken" r = Some (JStr t)
         /\ field "name" r = None /\ field "email" r = None
         /\ AuthCreateUser ph ∉ calls_since w r.2
     | Throw _ =>
         exists u t, createUser env ph = Ret u
         /\ createCustomToken env (uid u) = Ret t
         /\ field "newUser" r = Some (JBool true)
         /\ field "uid" r = Some (JStr (uid u))
         /\ field "customToken" r = Some (JStr t)
         /\ field "name" r = Some (opt_json (or_null (name s)))
         /\ field "email" r = Some (opt_json (or_null (email s)))
     end.
Proof.
  intros Hreq Hstore Hs Hlive Hcmp Hid r.
  apply verification_request_elim in Hreq as (Hpost & Hsid & Hotp & Hph & Hmiss & Hfmt).
  apply live_elim in Hlive as (Hphone & Hused & Hexp & Hlim).
  pose proof (Hstore OpGet) as Hget.
  pose proof (Hstore OpUpdate) as Hupd.
  assert (Hr : r = VerifyOtp.verifyOtp env req w) by reflexivity. clearbody r.
  unfold VerifyOtp.verifyOtp, VerifyOtp.checkUserExists in Hr.
  rewrite Hsid, Hotp, Hph in Hr.
  destruct Hid as [(u & t & Hu & Ht) | (e & u & t & He & Hnf & Hu & Ht)].
  - exec Hr. subst r. trace_simpl. rewrite Hu.
    repeat split; try done. exists t.
    repeat split; try done. intros Hin. in_trace Hin.
  - exec Hr. subst r. trace_simpl. rewrite He.
    repeat split; try done. by exists u, t.
Qed.

Lemma set_attempts_same s : set_attempts (attempts s) s = s.
Proof. by destruct s. Qed.

Lemma set_attempts_twice m k s : set_attempts m (set_attempts k s) = set_attempts m s.
Proof. reflexivity. Qed.

(** [n] wrong codes in a row, each sent before the expiry: [n] attempts
    more on record, and nothing else changed in the session. *)
Lemma tries_wrong env req sid otp ph (n : nat) : forall w s,
  verification_request req sid otp ph ->
  store_ok env OtpSessions ->
  otp_sessions w !! sid = Some s ->
  phone s = ph ->
  used s = false ->
  attempts s + Z.of_nat n <= 5 ->
  bcrypt_compare env otp (otpHash s) = false ->
  (forall k, (k < n)%nat -> clock env (clock_reads w + k)%nat <= expiresAt s) ->
  otp_sessions (tries env req n w) !! sid
    = Some (set_attempts (attempts s + Z.of_nat n) s)
  /\ clock_reads (tries env req n w) = (clock_reads w + n)%nat.
Proof.
  induction n as [|n IH]; intros w s Hreq Hstore Hs Hphone Hused Hsum Hcmp Hclock.
  - cbn [tries]. rewrite Z.add_0_r, set_attempts_same, Nat.add_0_r. done.
  - cbn [tries].
    assert (Hlive : live s ph (clock env (clock_reads w))).
    { repeat split; [done | done | | lia].
      specialize (Hclock 0%nat ltac:(lia)). by rewrite Nat.add_0_r in Hclock. }
    destruct (wrong_code_run env req w sid otp ph s Hreq Hstore Hs Hlive Hcmp)
      as (_ & _ & Hdocs & _ & _ & Hreads & _).
    set (w1 := (VerifyOtp.verifyOtp env req w).2) in *.
    destruct (IH w1 (set_attempts (attempts s + 1) s)) as [H1 H2]; try done.
    + rewrite Hdocs. apply lookup_insert_eq.
    + cbn [attempts set_attempts]. lia.
    + intros k Hk. rewrite Hreads.
      replace (S (clock_reads w) + k)%nat with (clock_reads w + S k)%nat by lia.
      apply Hclock. lia.
    + rewrite H1, H2, Hreads, set_attempts_twice. cbn [attempts set_attempts].
      split; [|lia]. do 2 f_equal. lia.
Qed.

(** X1.  A wrong code on a live session costs exactly one attempt: the
    answer is 403 INVALID_OTP with [attemptsRemaining = 5 - (attempts + 1)]
    (between 0 and 4 for a session that started at 0), the stored session
    differs in [attempts] only, no timer is set, and the Identity Provider
    is not called. *)
Theorem wrong_code_counts_one_attempt env req w sid otp ph s :
  verification_request req sid otp ph ->
  store_ok env OtpSessions ->
  otp_sessions w !! sid = Some s ->
  live s ph (clock env (clock_reads w)) ->
  bcrypt_compare env otp (otpHash s) = false ->
  let r := VerifyOtp.verifyOtp env req w in
  outcome r = failure 403 "INVALID_OTP"
  /\ field "attemptsRemaining" r = Some (JNum (5 - (attempts s + 1)))
  /\ (0 <= attempts s -> 0 <= 5 - (attempts s + 1) <= 4)
  /\ otp_sessions r.2 = <[sid := set_attempts (attempts s + 1) s]> (otp_sessions w)
  /\ password_reset_sessions r.2 = password_reset_sessions w
  /\ timers r.2 = timers w
  /\ existsb is_auth_call (calls_since w r.2) = false.
Proof.
  intros Hreq Hstore Hs Hlive Hcmp r.
  destruct (wrong_code_run env req w sid otp ph s Hreq Hstore Hs Hlive Hcmp)
    as (H1 & H2 & H3 & H4 & H5 & _ & H6).
  destruct Hlive as (_ & _ & _ & Hlt).
  subst r. rewrite H6. repeat split; try done; lia.
Qed.

Lemma wrong_code_counts_one_attempt_witness :
  let req := verify "sess1" "000000" subscriber in
  let s := session subscriber 60000 2 false in
  let w := world [("sess1", s)] in
  let r := VerifyOtp.verifyOtp env_ok req w in
  outcome r = failure 403 "INVALID_OTP"
  /\ field "attemptsRemaining" r = Some (JNum (5 - (attempts s + 1)))
  /\ (0 <= attempts s -> 0 <= 5 - (attempts s + 1) <= 4)
  /\ otp_sessions r.2 = <[ "sess1" := set_attempts (attempts s + 1) s]> (otp_sessions w)
  /\ password_reset_sessions r.2 = password_reset_sessions w
  /\ timers r.2 = timers w
  /\ existsb is_auth_call (calls_since w r.2) = false.
Proof.
  apply (wrong_code_counts_one_attempt env_ok (verify "sess1" "000000" subscriber)
           (world [("sess1", session subscriber 60000 2 false)])
           "sess1" "000000" subscriber (session subscriber 60000 2 false)).
  - by vm_compute.
  - intros op. reflexivity.
  - by vm_compute.
  - repeat split; by vm_compute.
  - by vm_compute.
Defined.

(** X2.  The right code on a live session, the Identity Provider
    answering: 200, the session stays in the store marked used (its
    attempts untouched), one five-second timer is set, and the answer tells
    an existing account ([newUser: false], its uid, no name or email) from
    a new one ([newUser: true], the uid just created, the name and email
    kept in the session since issuance). *)
Theorem correct_code_verifies env req w sid otp ph s :
  verification_request req sid otp ph ->
  store_ok env OtpSessions ->
  otp_sessions w !! sid = Some s ->
  live s ph (clock env (clock_reads w)) ->
  bcrypt_compare env otp (otpHash s) = true ->
  identity_available env ph ->
  let r := VerifyOtp.verifyOtp env req w in
  outcome r = Some (200, None)
  /\ field "success" r = Some (JBool true)
  /\ field "phone" r = Some (JStr ph)
  /\ otp_sessions r.2 = <[sid := set_used true s]> (otp_sessions w)
  /\ password_reset_sessions r.2 = password_reset_sessions w
  /\ timers r.2
     = (timers w ++ [{| delay := 5000; t_coll := OtpSessions; t_doc := sid |}])%list
  /\ match getUserByPhoneNumber env ph with
     | Ret u =>
         exists t, createCustomToken env (uid u) = Ret t
         /\ field "newUser" r = Some (JBool false)
         /\ field "uid" r = Some (JStr (uid u))
         /\ field "customToken" r = Some (JStr t)
         /\ field "name" r = None /\ field "email" r = None
         /\ AuthCreateUser ph ∉ calls_since w r.2
     | Throw _ =>
         exists u t, createUser env ph = Ret u
         /\ createCustomToken env (uid u) = Ret t
         /\ field "newUser" r = Some (JBool true)
         /\ field "uid" r = Some (JStr (uid u))
         /\ field "customToken" r = Some (JStr t)
         /\ field "name" r = Some (opt_json (or_null (name s)))
         /\ field "email" r = Some (opt_json (or_null (email s)))
     end.
Proof. apply verified_run. Qed.

(** A first verification for a phone with no account yet: the name given
    at issuance comes back with the new account. *)
Lemma correct_code_verifies_witness :
  let s := signup_session in
  let req := verify "sess1" "123456" subscriber in
  let w := world [("sess1", s)] in
  let r := VerifyOtp.verifyOtp env_ok req w in
  clock env_ok (clock_reads w) = expiresAt s
  /\ field "name" r = Some (JStr "Ada")
  /\ outcome r = Some (200, None)
  /\ field "success" r = Some (JBool true)
  /\ field "phone" r = Some (JStr subscriber)
  /\ otp_sessions r.2 = <["sess1" := set_used true s]> (otp_sessions w)
  /\ password_reset_sessions r.2 = password_reset_sessions w
  /\ timers r.2
     = (timers w ++ [{| delay := 5000; t_coll := OtpSessions; t_doc := "sess1" |}])%list
  /\ match getUserByPhoneNumber env_ok subscriber with
     | Ret u =>
         exists t, createCustomToken env_ok (uid u) = Ret t
         /\ field "newUser" r = Some (JBool false)
         /\ field "uid" r = Some (JStr (uid u))
         /\ field "customToken" r = Some (JStr t)
         /\ field "name" r = None /\ field "email" r = None
         /\ AuthCreateUser subscriber ∉ calls_since w r.2
     | Throw _ =>
         exists u t, createUser env_ok subscriber = Ret u
         /\ createCustomToken env_ok (uid u) = Ret t
         /\ field "newUser" r = Some (JBool true)
         /\ field "uid" r = Some (JStr (uid u))
         /\ field "customToken" r = Some (JStr t)
         /\ field "name" r = Some (opt_json (or_null (name s)))
         /\ field "email" r = Some (opt_json (or_null (email s)))
     end.
Proof.
  cbv zeta. split; [by vm_compute|]. split; [by vm_compute|].
  apply (correct_code_verifies env_ok (verify "sess1" "123456" subscriber)
           (world [("sess1", signup_session)]) "sess1" "123456" subscriber
           signup_session).
  - by vm_compute.
  - intros op. reflexivity.
  - by vm_compute.
  - repeat split; by vm_compute.
  - by vm_compute.
  - right. exists not_found, {| uid := "uid-1" |}, "token-1". by vm_compute.
Defined.

(** X3.  A session past [expiresAt] is answered 403 EXPIRED_OTP and
    deleted, the code not being compared, whether it is right or wrong;
    the clock must be strictly past the expiry. *)
Theorem expired_session_is_deleted env req w sid otp ph s :
  verification_request req sid otp ph ->
  store_ok env OtpSessions ->
  otp_sessions w !! sid = Some s ->
  phone s = ph ->
  used s = false ->
  expiresAt s < clock env (clock_reads w) ->
  let r := VerifyOtp.verifyOtp env req w in
  outcome r = failure 403 "EXPIRED_OTP"
  /\ otp_sessions r.2 = delete sid (otp_sessions w)
  /\ password_reset_sessions r.2 = password_reset_sessions w
  /\ timers r.2 = timers w
  /\ calls_since w r.2 = [DbGet OtpSessions sid; DbDelete OtpSessions sid].
Proof. apply expired_run. Qed.

(** One millisecond past the expiry, with the right code. *)
Lemma expired_session_is_deleted_witness :
  let s := session subscriber 300001 0 false in
  let req := verify "sess1" "123456" subscriber in
  let w := world [("sess1", s)] in
  let r := VerifyOtp.verifyOtp env_ok req w in
  bcrypt_compare env_ok "123456" (otpHash s) = true
  /\ outcome r = failure 403 "EXPIRED_OTP"
  /\ otp_sessions r.2 = delete "sess1" (otp_sessions w)
  /\ password_reset_sessions r.2 = password_reset_sessions w
  /\ timers r.2 = timers w
  /\ calls_since w r.2 = [DbGet OtpSessions "sess1"; DbDelete OtpSessions "sess1"].
Proof.
  cbv zeta. split; [by vm_compute|].
  apply (expired_session_is_deleted env_ok (verify "sess1" "123456" subscriber)
           (world [("sess1", session subscriber 300001 0 false)])
           "sess1" "123456" subscriber (session subscriber 300001 0 false)).
  - by vm_compute.
  - intros op. reflexivity.
  - by vm_compute.
  - reflexivity.
  - reflexivity.
  - by vm_compute.
Defined.

(** X4.  Attempts add up across requests.  After [n] wrong codes in a
    row, each sent before the expiry, a session that had [5 - n] attempts
    has five; the next request, sent before the expiry with any code, the
    right one included, is answered 403 MAX_ATTEMPTS_EXCEEDED and the
    session is gone. *)
Theorem wrong_codes_lock_session env req req' w sid otp otp' ph s (n : nat) :
  verification_request req sid otp ph ->
  verification_request req' sid otp' ph ->
  store_ok env OtpSessions ->
  otp_sessions w !! sid = Some s ->
  phone s = ph ->
  used s = false ->
  attempts s + Z.of_nat n = 5 ->
  bcrypt_compare env otp (otpHash s) = false ->
  (forall k, (k <= n)%nat -> clock env (clock_reads w + k)%nat <= expiresAt s) ->
  let w' := tries env req n w in
  let r := VerifyOtp.verifyOtp env req' w' in
  otp_sessions w' !! sid = Some (set_attempts 5 s)
  /\ outcome r = failure 403 "MAX_ATTEMPTS_EXCEEDED"
  /\ otp_sessions r.2 !! sid = None.
Proof.
  intros Hreq Hreq' Hstore Hs Hphone Hused Hsum Hcmp Hclock w' r.
  destruct (tries_wrong env req sid otp ph n w s) as [H1 H2]; try done.
  { lia. }
  { intros k Hk. apply Hclock. lia. }
  fold w' in H1, H2. rewrite Hsum in H1.
  destruct (locked_run env req' w' sid otp' ph (set_attempts 5 s)) as [H3 H4];
    try done.
  { rewrite H2. apply Hclock. lia. }
  fold r in H3, H4. rewrite H4, lookup_delete_eq. done.
Qed.

(** Five wrong codes on a fresh session, then the right one. *)
Lemma wrong_codes_lock_session_witness :
  let s := session subscriber 60000 0 false in
  let req := verify "sess1" "000000" subscriber in
  let req' := verify "sess1" "123456" subscriber in
  let w := world [("sess1", s)] in
  let w' := tries env_ok req 5 w in
  let r := VerifyOtp.verifyOtp env_ok req' w' in
  bcrypt_compare env_ok "123456" (otpHash s) = true
  /\ otp_sessions w' !! "sess1" = Some (set_attempts 5 s)
  /\ outcome r = failure 403 "MAX_ATTEMPTS_EXCEEDED"
  /\ otp_sessions r.2 !! "sess1" = None.
Proof.
  cbv zeta. split; [by vm_compute|].
  apply (wrong_codes_lock_session env_ok (verify "sess1" "000000" subscriber)
           (verify "sess1" "123456" subscriber)
           (world [("sess1", session subscriber 60000 0 false)])
           "sess1" "000000" "123456" subscriber (session subscriber 60000 0 false) 5).
  - by vm_compute.
  - by vm_compute.
  - intros op. reflexivity.
  - by vm_compute.
  - reflexivity.
  - reflexivity.
  - reflexivity.
  - by vm_compute.
  - intros k _. by vm_compute.
Defined.

(** ** Issuance *)

Lemma pretty_N_char_digit x : is_digit (pretty_N_char x) = true.
Proof. unfold pretty_N_char. by repeat case_match. Qed.

(** The decimal form of a number of six digits. *)
Lemma pretty_six_digits (n : N) :
  (100000 <= n < 1000000)%N ->
  exists c1 c2 c3 c4 c5 c6,
    pretty n = String c1 (String c2 (String c3 (String c4 (String c5 (String c6 "")))))
    /\ is_digit c1 = true /\ is_digit c2 = true /\ is_digit c3 = true
    /\ is_digit c4 = true /\ is_digit c5 = true /\ is_digit c6 = true.
Proof.
  intros Hn. unfold pretty, pretty_N.
  destruct (decide (n = 0%N)) as [->|_]; [lia|].
  rewrite pretty_N_go_step by lia.
  rewrite pretty_N_go_step by (apply N.div_str_pos; lia).
  rewrite !N.Div0.div_div.
  rewrite pretty_N_go_step by (apply N.div_str_pos; lia).
  rewrite !N.Div0.div_div.
  rewrite pretty_N_go_step by (apply N.div_str_pos; lia).
  rewrite !N.Div0.div_div.
  rewrite pretty_N_go_step by (apply N.div_str_pos; lia).
  rewrite !N.Div0.div_div.
  rewrite pretty_N_go_step by (apply N.div_str_pos; lia).
  rewrite !N.Div0.div_div.
  replace (n `div` (10 * 10 * 10 * 10 * 10 * 10))%N with 0%N
    by (symmetry; apply N.div_small; lia).
  rewrite pretty_N_go_0.
  do 6 eexists. split; [reflexivity|].
  repeat split; apply pretty_N_char_digit.
Qed.

(** X5.  Every code the generator draws is a number of [100000, 999999]
    written in six decimal digits, so it passes the format check of the
    verification handler; the reset flow draws its codes the same way. *)
Theorem generated_code_is_six_digits env :
  let otp := SendOtp.generateSecureOTP env in
  100000 <= randomInt env 100000 1000000 < 1000000
  /\ otp = pretty (randomInt env 100000 1000000)
  /\ String.length otp = 6%nat
  /\ VerifyOtp.isValidOTP otp = true
  /\ ResetPassword.generateSecureOTP env = otp.
Proof.
  intros otp. subst otp. unfold SendOtp.generateSecureOTP, ResetPassword.generateSecureOTP.
  assert (Hr : 100000 <= randomInt env 100000 1000000 < 1000000).
  { unfold randomInt. change (1000000 - 100000) with 900000.
    pose proof (Z.mod_pos_bound (entropy env) 900000 ltac:(lia)). lia. }
  split; [done|]. split; [done|].
  destruct (randomInt env 100000 1000000) as [|p|p] eqn:Hp; try lia.
  destruct (pretty_six_digits (N.pos p) ltac:(lia))
    as (c1 & c2 & c3 & c4 & c5 & c6 & Heq & H1 & H2 & H3 & H4 & H5 & H6).
  change (pretty (Z.pos p)) with (pretty (N.pos p)). rewrite Heq.
  unfold VerifyOtp.isValidOTP, all_digits. cbn.
  rewrite H1, H2, H3, H4, H5, H6. done.
Qed.

(** A successful issuance, path by path. *)
Lemma issue_run env req w resp :
  (SendOtp.sendOtp env req w).1 = Ret resp ->
  status resp = 200 ->
  let r := SendOtp.sendOtp env req w in
  let otp := SendOtp.generateSecureOTP env in
  let now := clock env (S (clock_reads w)) in
  exists ph sidm,
    issuance_request req ph
    /\ payload resp
       = [("success", JBool true); ("sessionId", JStr (auto_id env));
          ("messageSid", JStr sidm);
          ("message", JStr ("OTP sent via " +:+ or_else (b_source (body req)) "WhatsApp"));
          ("expiresIn", JNum 300); ("testOtp", JStr otp)]
    /\ otp_sessions r.2
       = <[auto_id env := issued_session env req ph now sidm]> (otp_sessions w)
    /\ password_reset_sessions r.2 = password_reset_sessions w
    /\ timers r.2 = timers w
    /\ filter (fun c => is_dispatch c = true) (calls_since w r.2) = [Dispatch ph otp true]
    /\ filter (fun c => is_set c = true) (calls_since w r.2)
       = [DbSet OtpSessions (auto_id env)].
Proof.
  intros Hret Hstatus r otp now. subst otp now.
  assert (Hr : r = SendOtp.sendOtp env req w) by reflexivity.
  rewrite <- Hr in Hret. clearbody r.
  unfold SendOtp.sendOtp, SendOtp.checkRateLimit, TwilioClient.sendWhatsAppOTP,
    TwilioClient.sendSMSOTP in Hr.
  destruct (b_phone (body req)) as [ph|] eqn:Hph.
  all: exec Hr; subst r; cbn [fst] in Hret; simplify_eq; try discriminate Hstatus.
  all: trace_simpl.
  all: try (cbn in E2; discriminate E2).
  all: eexists ph, _.
  all: (split; [repeat split; [by apply String.eqb_eq, negb_false_iff
                              | done | by apply negb_false_iff]|]).
  all: repeat split; reflexivity.
Qed.

(** X6.  What a successful issuance leaves behind: one session under the
    id the answer names, bound to the request's phone, holding the bcrypt
    hash of the code that was handed to the dispatcher (and no other send
    was made), created at the second clock reading and expiring exactly
    five minutes later, with no attempt on record and not used; the answer
    announces 300 seconds.  Nothing else is stored and no timer is set. *)
Theorem issued_session_is_fresh env req w resp :
  (SendOtp.sendOtp env req w).1 = Ret resp ->
  status resp = 200 ->
  let r := SendOtp.sendOtp env req w in
  let otp := SendOtp.generateSecureOTP env in
  let now := clock env (S (clock_reads w)) in
  exists ph sidm s,
    issuance_request req ph
    /\ obj_get "sessionId" (payload resp) = Some (JStr (auto_id env))
    /\ obj_get "messageSid" (payload resp) = Some (JStr sidm)
    /\ obj_get "expiresIn" (payload resp) = Some (JNum 300)
    /\ otp_sessions r.2 = <[auto_id env := s]> (otp_sessions w)
    /\ phone s = ph
    /\ otpHash s = bcrypt_hash env otp (saltRounds env)
    /\ createdAt s = now /\ expiresAt s = now + 300000
    /\ attempts s = 0 /\ used s = false
    /\ messageSid s = sidm
    /\ password_reset_sessions r.2 = password_reset_sessions w
    /\ timers r.2 = timers w
    /\ filter (fun c => is_dispatch c = true) (calls_since w r.2) = [Dispatch ph otp true].
Proof.
  intros Hret Hstatus r otp now.
  destruct (issue_run env req w resp Hret Hstatus)
    as (ph & sidm & Hreq & Hpay & Hdocs & Hreset & Htimers & Hsend & _).
  exists ph, sidm, (issued_session env req ph now sidm).
  rewrite Hpay. split; [exact Hreq|].
  repeat split; try done.
  all: cbn; lia.
Qed.

Lemma issued_session_is_fresh_witness :
  let w := world [] in
  let r := SendOtp.sendOtp env_ok (issue subscriber) w in
  let resp := default {| status := 0; payload := [] |} (reply r) in
  let otp := SendOtp.generateSecureOTP env_ok in
  let now := clock env_ok (S (clock_reads w)) in
  exists ph sidm s,
    issuance_request (issue subscriber) ph
    /\ obj_get "sessionId" (payload resp) = Some (JStr (auto_id env_ok))
    /\ obj_get "messageSid" (payload resp) = Some (JStr sidm)
    /\ obj_get "expiresIn" (payload resp) = Some (JNum 300)
    /\ otp_sessions r.2 = <[auto_id env_ok := s]> (otp_sessions w)
    /\ phone s = ph
    /\ otpHash s = bcrypt_hash env_ok otp (saltRounds env_ok)
    /\ createdAt s = now /\ expiresAt s = now + 300000
    /\ attempts s = 0 /\ used s = false
    /\ messageSid s = sidm
    /\ password_reset_sessions r.2 = password_reset_sessions w
    /\ timers r.2 = timers w
    /\ filter (fun c => is_dispatch c = true) (calls_since w r.2) = [Dispatch ph otp true].
Proof.
  apply (issued_session_is_fresh env_ok (issue subscriber) (world [])).
  - by vm_compute.
  - by vm_compute.
Defined.

(** X7.  Issuance and verification fit together.  The code of a
    successful issuance, sent back with the session id of the answer and
    the same phone before five minutes have passed on the clock, is
    accepted: 200, and the session is marked used.  (bcrypt recognises the
    hash it made, the store and the Identity Provider answer.) *)
Theorem issued_code_verifies env env' req req' w resp ph :
  (SendOtp.sendOtp env req w).1 = Ret resp ->
  status resp = 200 ->
  let w' := (SendOtp.sendOtp env req w).2 in
  let otp := SendOtp.generateSecureOTP env in
  b_phone (body req) = Some ph ->
  verification_request req' (auto_id env) otp ph ->
  store_ok env' OtpSessions ->
  bcrypt_compare env' otp (bcrypt_hash env otp (saltRounds env)) = true ->
  clock env' (clock_reads w') <= clock env (S (clock_reads w)) + 300000 ->
  identity_available env' ph ->
  let r := VerifyOtp.verifyOtp env' req' w' in
  outcome r = Some (200, None)
  /\ field "success" r = Some (JBool true)
  /\ exists s, otp_sessions r.2 !! auto_id env = Some s
       /\ phone s = ph /\ used s = true /\ attempts s = 0.
Proof.
  intros Hret Hstatus w' otp Hph Hreq' Hstore Hcmp Hclock Hid r.
  destruct (issue_run env req w resp Hret Hstatus)
    as (ph' & sidm & (_ & Hph' & _) & _ & Hdocs & _).
  assert (ph' = ph) as -> by congruence.
  fold w' in Hdocs.
  set (s := issued_session env req ph (clock env (S (clock_reads w))) sidm) in *.
  assert (Hs : otp_sessions w' !! auto_id env = Some s)
    by (rewrite Hdocs; apply lookup_insert_eq).
  assert (Hlive : live s ph (clock env' (clock_reads w'))).
  { unfold live, s. cbn. repeat split; lia. }
  destruct (verified_run env' req' w' (auto_id env) otp ph s Hreq' Hstore Hs Hlive Hcmp Hid)
    as (H1 & H2 & _ & H3 & _).
  fold r in H1, H2, H3. split; [done|]. split; [done|].
  exists (set_used true s). rewrite H3, lookup_insert_eq. done.
Qed.

Lemma issued_code_verifies_witness :
  let req := issue subscriber in
  let req' := verify "sess1" "123456" subscriber in
  let w := world [] in
  let w' := (SendOtp.sendOtp env_ok req w).2 in
  let r := VerifyOtp.verifyOtp env_ok req' w' in
  outcome r = Some (200, None)
  /\ field "success" r = Some (JBool true)
  /\ exists s, otp_sessions r.2 !! auto_id env_ok = Some s
       /\ phone s = subscriber /\ used s = true /\ attempts s = 0.
Proof.
  apply (issued_code_verifies env_ok env_ok (issue subscriber)
           (verify "sess1" "123456" subscriber) (world [])
           (default {| status := 0; payload := [] |}
              (reply (SendOtp.sendOtp env_ok (issue subscriber) (world []))))
           subscriber).
  - by vm_compute.
  - by vm_compute.
  - reflexivity.
  - by vm_compute.
  - intros op. reflexivity.
  - by vm_compute.
  - by vm_compute.
  - right. exists not_found, {| uid := "uid-1" |}, "token-1". by vm_compute.
Defined.

(** X8.  The rate limiter counts, from the store and on every call, the
    sessions of the phone created in the last fifteen minutes: it lets
    the request through exactly when there are fewer than three, whatever other
    phones have issued, and it changes nothing in the store. *)
Theorem rate_limiter_allows_below_three env ph w :
  db_fault env OtpSessions OpQuery = None ->
  let r := SendOtp.checkRateLimit env ph w in
  let since := clock env (clock_reads w) - 15 * 60 * 1000 in
  (r.1 = Ret Allowed <-> (length (recent ph since (otp_sessions w)) < 3)%nat)
  /\ otp_sessions r.2 = otp_sessions w
  /\ calls_since w r.2 = [DbQuery OtpSessions ph since].
Proof.
  intros Hq r since.
  pose proof (query_docs_length ph since (otp_sessions w)) as Hlen.
  assert (Hr : r = SendOtp.checkRateLimit env ph w) by reflexivity. clearbody r.
  unfold SendOtp.checkRateLimit in Hr.
  destruct (3 <=? Z.of_nat (length (query_docs ph since (otp_sessions w)))) eqn:Hc;
    subst since.
  - apply Z.leb_le in Hc as Hc'.
    exec Hr; subst r; trace_simpl.
    + cbn in Hc'. lia.
    + split; [|done]. split; [discriminate|lia].
  - apply Z.leb_gt in Hc as Hc'.
    exec Hr; subst r; trace_simpl.
    split; [|done]. split; [lia|done].
Qed.

Lemma rate_limiter_allows_below_three_witness :
  let w := world [("a", session subscriber 60000 0 false);
                  ("b", session subscriber 50000 0 false);
                  ("c", session subscriber 1000000 0 false);
                  ("d", session "+2348111111111" 40000 0 false)] in
  let r := SendOtp.checkRateLimit env_ok subscriber w in
  let since := clock env_ok (clock_reads w) - 15 * 60 * 1000 in
  (r.1 = Ret Allowed <-> (length (recent subscriber since (otp_sessions w)) < 3)%nat)
  /\ otp_sessions r.2 = otp_sessions w
  /\ calls_since w r.2 = [DbQuery OtpSessions subscriber since].
Proof.
  apply (rate_limiter_allows_below_three env_ok subscriber
           (world [("a", session subscriber 60000 0 false);
                   ("b", session subscriber 50000 0 false);
                   ("c", session subscriber 1000000 0 false);
                   ("d", session "+2348111111111" 40000 0 false)])).
  reflexivity.
Defined.

(** ** The reset flow *)

Lemma reset_request_elim env req sid otp ph pw :
  reset_request env req sid otp ph pw ->
  negb (String.eqb (method req) "POST") = false
  /\ String.eqb (default "" (b_action (body req))) "request_otp" = false
  /\ String.eqb (default "" (b_action (body req))) "reset_password" = true
  /\ b_sessionId (body req) = Some sid /\ b_otp (body req) = Some otp
  /\ b_phone (body req) = Some ph /\ b_newPassword (body req) = Some pw
  /\ falsy (Some sid) || falsy (Some otp) || falsy (Some ph) || falsy (Some pw) = false
  /\ negb (ResetPassword.valid (ResetPassword.validatePassword env (Some pw))) = false.
Proof.
  intros (Hm & Ha & Hs & Hs' & Ho & Ho' & Hp & Hp' & Hn & Hlen & Hn').
  rewrite Ha. unfold ResetPassword.validatePassword.
  rewrite !falsy_some by done.
  assert ((Z.of_nat (String.length (default "" (Some pw))) <? minLength env) = false) as ->
    by (apply Z.ltb_ge; exact Hlen).
  repeat split; auto using post_method.
Qed.





(** A reset request whose code is right for a live session. *)
Lemma reset_run env req w sid otp ph pw s :
  reset_request env req sid otp ph pw ->
  store_ok env PasswordResetSessions ->
  password_reset_sessions w !! sid = Some s ->
  live s ph (clock env (clock_reads w)) ->
  bcrypt_compare env otp (otpHash s) = true ->
  let r := ResetPassword.resetPassword env req w in
  match getUserByPhoneNumber env ph with
  | Ret u =>
      match updateUser env (uid u) pw with
      | Ret _ =>
          outcome r = Some (200, None)
          /\ field "success" r = Some (JBool true)
          /\ calls_since w r.2
             = [DbGet PasswordResetSessions sid;
                BcryptCompare otp (otpHash s) true;
                AuthGetUser ph; AuthUpdateUser (uid u);
                DbUpdate PasswordResetSessions sid (PatchUsed true)]
          /\ password_reset_sessions r.2
             = <[sid := set_used true s]> (password_reset_sessions w)
          /\ timers r.2
             = (timers w ++ [{| delay := 5000; t_coll := PasswordResetSessions;
                                t_doc := sid |}])%list
      | Throw e =>
          outcome r = (if code_is (err_code e) "auth/user-not-found"
                       then failure 404 "USER_NOT_FOUND"
                       else failure 500 "INTERNAL_ERROR")
          /\ calls_since w r.2
             = [DbGet PasswordResetSessions sid;
                BcryptCompare otp (otpHash s) true;
                AuthGetUser ph; AuthUpdateUser (uid u)]
          /\ password_reset_sessions r.2 = password_reset_sessions w
          /\ timers r.2 = timers w
      end
  | Throw e =>
      outcome r = (if code_is (err_code e) "auth/user-not-found"
                   then failure 404 "USER_NOT_FOUND"
                   else failure 500 "INTERNAL_ERROR")
      /\ calls_since w r.2
         = [DbGet PasswordResetSessions sid;
            BcryptCompare otp (otpHash s) true; AuthGetUser ph]
      /\ password_reset_sessions r.2 = password_reset_sessions w
      /\ timers r.2 = timers w
  end
  /\ otp_sessions r.2 = otp_sessions w.
Proof.
  intros Hreq Hstore Hs Hlive Hcmp r.
  apply reset_request_elim in Hreq
    as (Hpost & Hact & Hact' & Hsid & Hotp & Hph & Hpw & Hmiss & Hweak).
  apply live_elim in Hlive as (Hphone & Hused & Hexp & Hlim).
  pose proof (Hstore OpGet) as Hget.
  pose proof (Hstore OpUpdate) as Hupd.
  assert (Hr : r = ResetPassword.resetPassword env req w) by reflexivity. clearbody r.
  unfold ResetPassword.resetPassword, ResetPassword.handleResetPassword in Hr.
  rewrite Hsid, Hotp, Hph, Hpw in Hr.
  exec Hr; subst r; trace_simpl; try done.
Qed.





(** A request for a reset code that passes validation and that the rate
    limiter of the reset flow lets through: fewer than three reset
    sessions of the phone in the window, or the query failing. *)
Lemma reset_let_through env ph w :
  (db_fault env PasswordResetSessions OpQuery = None ->
   (length (recent ph (clock env (clock_reads w) - 15 * 60 * 1000)
              (password_reset_sessions w)) < 3)%nat) ->
  db_fault env PasswordResetSessions OpQuery = None ->
  (3 <=? Z.of_nat (length (query_docs ph (clock env (clock_reads w) - 15 * 60 * 1000)
                             (password_reset_sessions w)))) = false.
Proof.
  intros H Hq. apply Z.leb_gt. rewrite query_docs_length. specialize (H Hq). lia.
Qed.

(** X13.  A reset code requested for a phone without an account: the
    answer is 200 with a message that does not say so, and nothing was
    generated, hashed, sent or stored.  The answer has two keys only. *)
Theorem unknown_account_reset_is_silent env req w ph e :
  method req = "POST" ->
  b_action (body req) = Some "request_otp" ->
  b_phone (body req) = Some ph ->
  SendOtp.isValidPhoneNumber ph = true ->
  (db_fault env PasswordResetSessions OpQuery = None ->
   (length (recent ph (clock env (clock_reads w) - 15 * 60 * 1000)
              (password_reset_sessions w)) < 3)%nat) ->
  getUserByPhoneNumber env ph = Throw e ->
  code_is (err_code e) "auth/user-not-found" = true ->
  let r := ResetPassword.resetPassword env req w in
  reply r = Some {| status := 200;
                    payload := [("success", JBool true);
                                ("message", JStr "If an account with this phone number exists, an OTP has been sent.")] |}
  /\ calls_since w r.2
     = [DbQuery PasswordResetSessions ph (clock env (clock_reads w) - 15 * 60 * 1000);
        AuthGetUser ph]
  /\ otp_sessions r.2 = otp_sessions w
  /\ password_reset_sessions r.2 = password_reset_sessions w
  /\ timers r.2 = timers w.
Proof.
  intros Hm Ha Hph Hvalid Hlim He Hnf r.
  apply post_method in Hm as Hpost.
  pose proof (reset_let_through env ph w Hlim) as Hadm.
  pose proof (isValidPhoneNumber_nonempty ph Hvalid) as Hne.
  apply falsy_some in Hne.
  assert (Hbad : falsy (Some ph) || negb (SendOtp.isValidPhoneNumber ph) = false)
    by (by rewrite Hne, Hvalid).
  assert (Hr : r = ResetPassword.resetPassword env req w) by reflexivity. clearbody r.
  unfold ResetPassword.resetPassword, ResetPassword.handleRequestOTP,
    ResetPassword.checkResetRateLimit in Hr.
  rewrite Ha, Hph in Hr.
  change (String.eqb (default "" (Some "request_otp")) "request_otp") with true in Hr.
  destruct (db_fault env PasswordResetSessions OpQuery) as [f|] eqn:Hq.
  - exec Hr; subst r; trace_simpl; done.
  - specialize (Hadm eq_refl).
    exec Hr; subst r; trace_simpl; done.
Qed.

Lemma unknown_account_reset_witness :
  let w := reset_world [] in
  let r := ResetPassword.resetPassword env_ok (request_reset subscriber) w in
  reply r = Some {| status := 200;
                    payload := [("success", JBool true);
                                ("message", JStr "If an account with this phone number exists, an OTP has been sent.")] |}
  /\ calls_since w r.2
     = [DbQuery PasswordResetSessions subscriber
          (clock env_ok (clock_reads w) - 15 * 60 * 1000);
        AuthGetUser subscriber]
  /\ otp_sessions r.2 = otp_sessions w
  /\ password_reset_sessions r.2 = password_reset_sessions w
  /\ timers r.2 = timers w.
Proof.
  apply (unknown_account_reset_is_silent env_ok (request_reset subscriber)
           (reset_world []) subscriber not_found).
  - reflexivity.
  - reflexivity.
  - reflexivity.
  - by vm_compute.
  - intros _. vm_compute. lia.
  - reflexivity.
  - by vm_compute.
Defined.

(** A request for a reset code, for a registered phone, that ends in 200
    with a session id. *)
Lemma reset_issue_run env req w ph u :
  method req = "POST" ->
  b_action (body req) = Some "request_otp" ->
  b_phone (body req) = Some ph ->
  SendOtp.isValidPhoneNumber ph = true ->
  (db_fault env PasswordResetSessions OpQuery = None ->
   (length (recent ph (clock env (clock_reads w) - 15 * 60 * 1000)
              (password_reset_sessions w)) < 3)%nat) ->
  getUserByPhoneNumber env ph = Ret u ->
  db_fault env PasswordResetSessions OpSet = None ->
  let r := ResetPassword.resetPassword env req w in
  let otp := ResetPassword.generateSecureOTP env in
  let now := clock env (S (clock_reads w)) in
  (exists code, outcome r = Some (500, Some code)
     /\ Dispatch ph otp false ∈ calls_since w r.2
     /\ password_reset_sessions r.2 = password_reset_sessions w)
  \/ (exists sidm,
        reply r = Some {| status := 200;
                          payload := [("success", JBool true);
                                      ("sessionId", JStr (auto_id env));
                                      ("messageSid", JStr sidm);
                                      ("message", JStr "OTP sent to your phone");
                                      ("expiresIn", JNum 300);
                                      ("testOtp", JStr otp)] |}
        /\ password_reset_sessions r.2
           = <[auto_id env := issued_reset_session env ph now sidm]>
               (password_reset_sessions w)
        /\ otp_sessions r.2 = otp_sessions w
        /\ timers r.2 = timers w
        /\ filter (fun c => is_dispatch c = true) (calls_since w r.2)
           = [Dispatch ph otp true]).
Proof.
  intros Hm Ha Hph Hvalid Hlim Hu Hset r otp now.
  apply post_method in Hm as Hpost.
  pose proof (reset_let_through env ph w Hlim) as Hadm.
  pose proof (isValidPhoneNumber_nonempty ph Hvalid) as Hne.
  apply falsy_some in Hne.
  assert (Hbad : falsy (Some ph) || negb (SendOtp.isValidPhoneNumber ph) = false)
    by (by rewrite Hne, Hvalid).
  assert (Hr : r = ResetPassword.resetPassword env req w) by reflexivity. clearbody r.
  unfold ResetPassword.resetPassword, ResetPassword.handleRequestOTP,
    ResetPassword.checkResetRateLimit, TwilioClient.sendWhatsAppOTP,
    TwilioClient.sendSMSOTP in Hr.
  rewrite Ha, Hph in Hr.
  change (String.eqb (default "" (Some "request_otp")) "request_otp") with true in Hr.
  destruct (db_fault env PasswordResetSessions OpQuery) as [f|] eqn:Hq;
    [|specialize (Hadm eq_refl)].
  all: exec Hr; subst r; trace_simpl.
  all: first [ right; eexists; repeat split; reflexivity
             | left; eexists; split; [reflexivity|]; split; [find_call | reflexivity] ].
Qed.



(** ** Failures, replays and the limiter *)

(** X15.  Every request gets an answer: whatever the request holds and
    whatever the store, bcrypt, the dispatcher or the Identity Provider
    do, none of the three handlers throws.  The status is one of a fixed
    few, [success] is true exactly on 200, and a [code] is given exactly
    on the others. *)
Theorem handlers_always_answer env req w :
  answers [200; 400; 405; 429; 500] (SendOtp.sendOtp env req w)
  /\ answers [200; 400; 403; 404; 405; 500] (VerifyOtp.verifyOtp env req w)
  /\ answers [200; 400; 403; 404; 405; 429; 500] (ResetPassword.resetPassword env req w).
Proof.
  split; [|split].
  - remember (SendOtp.sendOtp env req w) as r eqn:Hr.
    unfold SendOtp.sendOtp, SendOtp.checkRateLimit, TwilioClient.sendWhatsAppOTP,
      TwilioClient.sendSMSOTP in Hr.
    exec Hr; subst r; answered.
  - remember (VerifyOtp.verifyOtp env req w) as r eqn:Hr.
    unfold VerifyOtp.verifyOtp, VerifyOtp.checkUserExists in Hr.
    exec Hr; subst r; answered.
  - remember (ResetPassword.resetPassword env req w) as r eqn:Hr.
    unfold ResetPassword.resetPassword, ResetPassword.handleRequestOTP,
      ResetPassword.handleResetPassword, ResetPassword.checkResetRateLimit,
      TwilioClient.sendWhatsAppOTP, TwilioClient.sendSMSOTP in Hr.
    exec Hr; subst r; answered.
Qed.

(** X16.  Whenever the store rejects an operation during a
    verification (the read of the session, the deletion of an expired or
    locked one, the attempt counter, the used flag), the caller gets 500
    INTERNAL_ERROR, and sessions and timers are as they were: in
    particular a wrong code whose counter update is rejected is not
    counted, and a right code whose flag update is rejected leaves the
    session unused, without an account or a token being made. *)
Theorem store_failure_is_internal_error env req w :
  let r := VerifyOtp.verifyOtp env req w in
  (exists c, c ∈ calls_since w r.2 /\ rejected_by_store env c = true) ->
  outcome r = failure 500 "INTERNAL_ERROR"
  /\ otp_sessions r.2 = otp_sessions w
  /\ password_reset_sessions r.2 = password_reset_sessions w
  /\ timers r.2 = timers w
  /\ existsb is_auth_call (calls_since w r.2) = false.
Proof.
  intros r.
  assert (Hr : r = VerifyOtp.verifyOtp env req w) by reflexivity. clearbody r.
  unfold VerifyOtp.verifyOtp, VerifyOtp.checkUserExists in Hr.
  exec Hr; subst r; trace_simpl; intros H; try done.
  all: none_rejected H.
Qed.

Lemma store_failure_witness :
  let env := mk_env (fun _ => t0)
               (fun _ op => match op with OpUpdate => Some unreachable | _ => None end)
               accepted (Throw not_found) (Ret "token-1") in
  let w := world [("sess1", session subscriber 60000 0 false)] in
  let r := VerifyOtp.verifyOtp env (verify "sess1" "000000" subscriber) w in
  outcome r = failure 500 "INTERNAL_ERROR"
  /\ otp_sessions r.2 = otp_sessions w
  /\ password_reset_sessions r.2 = password_reset_sessions w
  /\ timers r.2 = timers w
  /\ existsb is_auth_call (calls_since w r.2) = false.
Proof.
  apply (store_failure_is_internal_error
           (mk_env (fun _ => t0)
              (fun _ op => match op with OpUpdate => Some unreachable | _ => None end)
              accepted (Throw not_found) (Ret "token-1"))
           (verify "sess1" "000000" subscriber)
           (world [("sess1", session subscriber 60000 0 false)])).
  exists (DbUpdate OtpSessions "sess1" (PatchAttempts 1)).
  split; [vm_compute; find_call | reflexivity].
Defined.

(** X17.  In [sendOtp] the session is written after the code has gone
    out.  When the store rejects that write, the code was delivered all
    the same, the caller gets 500 INTERNAL_ERROR without a session id, and
    no session exists for the code: it cannot be verified. *)
Theorem persist_failure_orphans_code env req w e :
  db_fault env OtpSessions OpSet = Some e ->
  let r := SendOtp.sendOtp env req w in
  (exists c, c ∈ calls_since w r.2 /\ is_delivered c = true) ->
  outcome r = failure 500 "INTERNAL_ERROR"
  /\ field "sessionId" r = None
  /\ field "testOtp" r = None
  /\ otp_sessions r.2 = otp_sessions w
  /\ exists ph, b_phone (body req) = Some ph
       /\ filter (fun c => is_dispatch c = true) (calls_since w r.2)
          = [Dispatch ph (SendOtp.generateSecureOTP env) true]
       /\ last (calls_since w r.2) = Some (DbSet OtpSessions (auto_id env)).
Proof.
  intros Hset r.
  assert (Hr : r = SendOtp.sendOtp env req w) by reflexivity. clearbody r.
  unfold SendOtp.sendOtp, SendOtp.checkRateLimit, TwilioClient.sendWhatsAppOTP,
    TwilioClient.sendSMSOTP in Hr.
  destruct (b_phone (body req)) as [ph|] eqn:Hph.
  all: exec Hr; subst r; trace_simpl; intros (c & Hin & Hc).
  all: try (exfalso; in_trace Hin; subst c; discriminate Hc).
  all: repeat split; try done.
  all: by exists ph.
Qed.

Lemma persist_failure_witness :
  let env := mk_env (fun _ => t0)
               (fun _ op => match op with OpSet => Some unreachable | _ => None end)
               accepted (Throw not_found) (Ret "token-1") in
  let w := world [] in
  let r := SendOtp.sendOtp env (issue subscriber) w in
  outcome r = failure 500 "INTERNAL_ERROR"
  /\ field "sessionId" r = None
  /\ field "testOtp" r = None
  /\ otp_sessions r.2 = otp_sessions w
  /\ exists ph, b_phone (body (issue subscriber)) = Some ph
       /\ filter (fun c => is_dispatch c = true) (calls_since w r.2)
          = [Dispatch ph (SendOtp.generateSecureOTP env) true]
       /\ last (calls_since w r.2) = Some (DbSet OtpSessions (auto_id env)).
Proof.
  apply (persist_failure_orphans_code
           (mk_env (fun _ => t0)
              (fun _ op => match op with OpSet => Some unreachable | _ => None end)
              accepted (Throw not_found) (Ret "token-1"))
           (issue subscriber) (world []) unreachable).
  - reflexivity.
  - exists (Dispatch subscriber "123456" true).
    split; [vm_compute; find_call | reflexivity].
Defined.

Lemma missing_session_run env req w sid otp ph :
  verification_request req sid otp ph ->
  db_fault env OtpSessions OpGet = None ->
  otp_sessions w !! sid = None ->
  let r := VerifyOtp.verifyOtp env req w in
  outcome r = failure 404 "SESSION_NOT_FOUND"
  /\ otp_sessions r.2 = otp_sessions w /\ timers r.2 = timers w.
Proof.
  intros Hreq Hget Hs r.
  apply verification_request_elim in Hreq as (Hpost & Hsid & Hotp & Hph & Hmiss & Hfmt).
  assert (Hr : r = VerifyOtp.verifyOtp env req w) by reflexivity. clearbody r.
  unfold VerifyOtp.verifyOtp in Hr. rewrite Hsid, Hotp, Hph in Hr.
  exec Hr. subst r. trace_simpl. done.
Qed.

Lemma fire_run env t w :
  db_fault env (t_coll t) OpDelete = None ->
  docs (t_coll t) (fire env t w).2 = delete (t_doc t) (docs (t_coll t) w)
  /\ timers (fire env t w).2 = timers w
  /\ clock_reads (fire env t w).2 = clock_reads w.
Proof.
  intros Hdel. remember (fire env t w) as r eqn:Hr. destruct t as [d tc td].
  cbn [t_coll t_doc] in *.
  exec Hr. subst r. destruct tc; done.
Qed.

(** X18.  A code works once.  After a verification that succeeded, the
    same request is turned down with 403 OTP_ALREADY_USED for as long as
    the session is there, and with 404 SESSION_NOT_FOUND once the deletion
    that the success scheduled has run; neither replay reaches the
    Identity Provider. *)
Theorem code_is_single_use env env' env'' req w sid otp ph s :
  verification_request req sid otp ph ->
  store_ok env OtpSessions ->
  otp_sessions w !! sid = Some s ->
  live s ph (clock env (clock_reads w)) ->
  bcrypt_compare env otp (otpHash s) = true ->
  identity_available env ph ->
  db_fault env' OtpSessions OpGet = None ->
  db_fault env'' OtpSessions OpDelete = None ->
  let r := VerifyOtp.verifyOtp env req w in
  let replay := VerifyOtp.verifyOtp env' req r.2 in
  outcome r = Some (200, None)
  /\ outcome replay = failure 403 "OTP_ALREADY_USED"
  /\ existsb is_auth_call (calls_since r.2 replay.2) = false
  /\ exists t, last (timers r.2) = Some t
       /\ delay t = 5000
       /\ let late := VerifyOtp.verifyOtp env' req (fire env'' t r.2).2 in
          outcome late = failure 404 "SESSION_NOT_FOUND"
          /\ existsb is_auth_call (calls_since (fire env'' t r.2).2 late.2) = false.
Proof.
  intros Hreq Hstore Hs Hlive Hcmp Hid Hget' Hdel'' r replay.
  destruct (verified_run env req w sid otp ph s Hreq Hstore Hs Hlive Hcmp Hid)
    as (H1 & _ & _ & Hdocs & _ & Htimers & _).
  fold r in H1, Hdocs, Htimers.
  assert (Hs' : otp_sessions r.2 !! sid = Some (set_used true s))
    by (rewrite Hdocs; apply lookup_insert_eq).
  destruct Hlive as (Hphone & _).
  apply verification_request_elim in Hreq as Hel.
  destruct Hel as (Hpost & Hsid & Hotp & Hph & Hmiss & Hfmt).
  split; [done|].
  assert (Hreplay : outcome replay = failure 403 "OTP_ALREADY_USED"
                    /\ existsb is_auth_call (calls_since r.2 replay.2) = false).
  { assert (Hr : replay = VerifyOtp.verifyOtp env' req r.2) by reflexivity.
    clearbody replay. clearbody r.
    apply String.eqb_eq in Hphone.
    assert (Hphone' : String.eqb (phone (set_used true s)) ph = true) by done.
    assert (Hused' : used (set_used true s) = true) by done.
    unfold VerifyOtp.verifyOtp in Hr. rewrite Hsid, Hotp, Hph in Hr.
    exec Hr. subst replay. trace_simpl. done. }
  destruct Hreplay as [? ?]. split; [done|]. split; [done|].
  set (t := {| delay := 5000; t_coll := OtpSessions; t_doc := sid |}) in *.
  exists t. split; [rewrite Htimers; apply last_snoc|]. split; [done|].
  destruct (fire_run env'' t r.2 Hdel'') as (Hfired & _).
  cbn [t_coll t_doc t docs] in Hfired.
  assert (Hgone : otp_sessions (fire env'' t r.2).2 !! sid = None)
    by (rewrite Hfired; apply lookup_delete_eq).
  intros late.
  assert (Hr : late = VerifyOtp.verifyOtp env' req (fire env'' t r.2).2) by reflexivity.
  clearbody late. generalize dependent (fire env'' t r.2).2. intros w2 _ Hgone Hr.
  unfold VerifyOtp.verifyOtp in Hr. rewrite Hsid, Hotp, Hph in Hr.
  exec Hr. subst late. trace_simpl. done.
Qed.

Lemma code_is_single_use_witness :
  let w := world [("sess1", session subscriber 60000 0 false)] in
  let req := verify "sess1" "123456" subscriber in
  let r := VerifyOtp.verifyOtp env_ok req w in
  let replay := VerifyOtp.verifyOtp env_ok req r.2 in
  outcome r = Some (200, None)
  /\ outcome replay = failure 403 "OTP_ALREADY_USED"
  /\ existsb is_auth_call (calls_since r.2 replay.2) = false
  /\ exists t, last (timers r.2) = Some t
       /\ delay t = 5000
       /\ let late := VerifyOtp.verifyOtp env_ok req (fire env_ok t r.2).2 in
          outcome late = failure 404 "SESSION_NOT_FOUND"
          /\ existsb is_auth_call (calls_since (fire env_ok t r.2).2 late.2) = false.
Proof.
  apply (code_is_single_use env_ok env_ok env_ok (verify "sess1" "123456" subscriber)
           (world [("sess1", session subscriber 60000 0 false)])
           "sess1" "123456" subscriber (session subscriber 60000 0 false)).
  - by vm_compute.
  - intros op. reflexivity.
  - reflexivity.
  - by vm_compute.
  - reflexivity.
  - right. exists not_found, {| uid := "uid-1" |}, "token-1". by vm_compute.
  - reflexivity.
  - reflexivity.
Defined.

(** *** Sessions in the window of the limiter *)

Lemma recent_delete ph since m sid s :
  m !! sid = Some s -> matches ph since (sid, s) ->
  S (length (recent ph since (delete sid m))) = length (recent ph since m).
Proof.
  intros Hs Hm. unfold recent.
  rewrite <- (map_to_list_delete m sid s Hs).
  by rewrite filter_cons_True.
Qed.

Lemma recent_update ph since m sid s s' :
  m !! sid = Some s -> phone s' = phone s -> createdAt s' = createdAt s ->
  length (recent ph since (<[sid := s']> m)) = length (recent ph since m).
Proof.
  intros Hs Hp Hc. unfold recent.
  rewrite <- (insert_delete_eq m sid s').
  rewrite map_to_list_insert by apply lookup_delete_eq.
  rewrite <- (map_to_list_delete m sid s Hs).
  rewrite !filter_cons.
  destruct (decide (matches ph since (sid, s'))) as [H|H],
           (decide (matches ph since (sid, s))) as [H'|H']; try done.
  - exfalso. apply H'. unfold matches in *. cbn in *. by rewrite <- Hp, <- Hc.
  - exfalso. apply H. unfold matches in *. cbn in *. by rewrite Hp, Hc.
Qed.

Lemma checkRateLimit_run env ph w :
  db_fault env OtpSessions OpQuery = None ->
  let r := SendOtp.checkRateLimit env ph w in
  let n := length (recent ph (clock env (clock_reads w) - 15 * 60 * 1000)
                     (otp_sessions w)) in
  ((n < 3)%nat -> r.1 = Ret Allowed)
  /\ ((3 <= n)%nat -> exists m, r.1 = Ret (Limited m)).
Proof.
  intros Hq r n. subst n. rewrite <- query_docs_length.
  assert (Hr : r = SendOtp.checkRateLimit env ph w) by reflexivity. clearbody r.
  unfold SendOtp.checkRateLimit in Hr.
  destruct (3 <=? Z.of_nat (length (query_docs ph (clock env (clock_reads w) - 15 * 60 * 1000)
                                      (otp_sessions w)))) eqn:Hc.
  - apply Z.leb_le in Hc as Hc'.
    exec Hr; subst r; cbn [fst].
    + cbn in Hc'. lia.
    + split; [lia | eauto].
  - apply Z.leb_gt in Hc as Hc'.
    exec Hr; subst r; cbn [fst]. split; [done | lia].
Qed.

Lemma verifyOtp_clock_reads env req w sid otp ph s :
  verification_request req sid otp ph ->
  store_ok env OtpSessions ->
  otp_sessions w !! sid = Some s ->
  live s ph (clock env (clock_reads w)) ->
  bcrypt_compare env otp (otpHash s) = true ->
  identity_available env ph ->
  clock_reads (VerifyOtp.verifyOtp env req w).2 = S (clock_reads w).
Proof.
  intros Hreq Hstore Hs Hlive Hcmp Hid.
  apply verification_request_elim in Hreq as (Hpost & Hsid & Hotp & Hph & Hmiss & Hfmt).
  apply live_elim in Hlive as (Hphone & Hused & Hexp & Hlim).
  pose proof (Hstore OpGet) as Hget.
  pose proof (Hstore OpUpdate) as Hupd.
  remember (VerifyOtp.verifyOtp env req w) as r eqn:Hr.
  unfold VerifyOtp.verifyOtp, VerifyOtp.checkUserExists in Hr.
  rewrite Hsid, Hotp, Hph in Hr.
  destruct Hid as [(u & t & Hu & Ht) | (e & u & t & He & Hnf & Hu & Ht)].
  all: exec Hr; subst r; reflexivity.
Qed.

(** X19.  The limiter counts the sessions that are in the store, used or
    not, so a session stops counting when it is deleted.  With three
    sessions of a phone in the window a further code is refused, also
    right after one of them was verified; once the deletion scheduled by
    that verification has run, the next request passes. *)
Theorem verified_session_stops_counting env env' env3 req w sid otp ph s :
  verification_request req sid otp ph ->
  store_ok env OtpSessions ->
  otp_sessions w !! sid = Some s ->
  live s ph (clock env (clock_reads w)) ->
  bcrypt_compare env otp (otpHash s) = true ->
  identity_available env ph ->
  db_fault env' OtpSessions OpDelete = None ->
  db_fault env3 OtpSessions OpQuery = None ->
  let r := VerifyOtp.verifyOtp env req w in
  let t := {| delay := 5000; t_coll := OtpSessions; t_doc := sid |} in
  let w2 := (fire env' t r.2).2 in
  let since := clock env3 (S (clock_reads w)) - 15 * 60 * 1000 in
  since < createdAt s ->
  length (recent ph since (otp_sessions w)) = 3%nat ->
  last (timers r.2) = Some t
  /\ (exists m, (SendOtp.checkRateLimit env3 ph r.2).1 = Ret (Limited m))
  /\ (SendOtp.checkRateLimit env3 ph w2).1 = Ret Allowed.
Proof.
  intros Hreq Hstore Hs Hlive Hcmp Hid Hdel Hq r t w2 since Hin Hthree.
  pose proof (verifyOtp_clock_reads env req w sid otp ph s Hreq Hstore Hs Hlive Hcmp Hid)
    as Hclock.
  destruct (verified_run env req w sid otp ph s Hreq Hstore Hs Hlive Hcmp Hid)
    as (_ & _ & _ & Hdocs & _ & Htimers & _).
  fold r in Hclock, Hdocs, Htimers.
  destruct (fire_run env' t r.2 Hdel) as (Hfired & _ & Hclock2).
  fold w2 in Hfired, Hclock2. cbn [t_coll t_doc t docs] in Hfired.
  destruct Hlive as (Hphone & _).
  split; [rewrite Htimers; apply last_snoc|]. split.
  - destruct (checkRateLimit_run env3 ph r.2 Hq) as [_ Hlim].
    apply Hlim. rewrite Hclock, Hdocs. fold since.
    rewrite (recent_update ph since _ sid s) by done. lia.
  - destruct (checkRateLimit_run env3 ph w2 Hq) as [Hadm _].
    apply Hadm. rewrite Hclock2, Hclock, Hfired, Hdocs, delete_insert_eq. fold since.
    pose proof (recent_delete ph since (otp_sessions w) sid s Hs) as Hless.
    assert (matches ph since (sid, s)) by (by split).
    specialize (Hless ltac:(done)). lia.
Qed.

Lemma verified_session_stops_counting_witness :
  let w := world [("sess1", session subscriber 60000 0 false);
                  ("sess2", session subscriber 50000 0 false);
                  ("sess3", session subscriber 40000 0 false)] in
  let r := VerifyOtp.verifyOtp env_ok (verify "sess1" "123456" subscriber) w in
  let t := {| delay := 5000; t_coll := OtpSessions; t_doc := "sess1" |} in
  let w2 := (fire env_ok t r.2).2 in
  last (timers r.2) = Some t
  /\ (exists m, (SendOtp.checkRateLimit env_ok subscriber r.2).1 = Ret (Limited m))
  /\ (SendOtp.checkRateLimit env_ok subscriber w2).1 = Ret Allowed.
Proof.
  apply (verified_session_stops_counting env_ok env_ok env_ok
           (verify "sess1" "123456" subscriber)
           (world [("sess1", session subscriber 60000 0 false);
                   ("sess2", session subscriber 50000 0 false);
                   ("sess3", session subscriber 40000 0 false)])
           "sess1" "123456" subscriber (session subscriber 60000 0 false)).
  - by vm_compute.
  - intros op. reflexivity.
  - reflexivity.
  - by vm_compute.
  - reflexivity.
  - right. exists not_found, {| uid := "uid-1" |}, "token-1". by vm_compute.
  - reflexivity.
  - reflexivity.
  - by vm_compute.
  - by vm_compute.
Defined.

(** ** The dispatcher *)


(** *** Strings of the masking *)

Lemma length_append s1 s2 :
  String.length (s1 +:+ s2) = (String.length s1 + String.length s2)%nat.
Proof.
  induction s1 as [|c s1 IH]; [done|].
  change (S (String.length (s1 +:+ s2)) = S (String.length s1 + String.length s2)).
  by rewrite IH.
Qed.

Lemma length_substring s : forall n m,
  (n + m <= String.length s)%nat -> String.length (substring n m s) = m.
Proof.
  induction s as [|c s IH]; intros n m H; cbn in H.
  - assert (n = 0%nat) as -> by lia. assert (m = 0%nat) as -> by lia. done.
  - destruct n as [|n]; cbn.
    + destruct m as [|m]; cbn; [done|]. rewrite IH by lia. done.
    + apply IH. lia.
Qed.

Lemma length_stars n : String.length (stars n) = n.
Proof. induction n as [|n IH]; [done|]. cbn. f_equal. exact IH. Qed.

Lemma get_stars n : forall i, (i < n)%nat -> get i (stars n) = Some "*"%char.
Proof.
  induction n as [|n IH]; intros i H; [lia|].
  destruct i as [|i]; cbn; [done|]. apply IH. lia.
Qed.

